(** * MLCONCRETEMIX: a shallow embedding of [app.py]

    The program is a Flask application: two artifact files are fetched at
    import time when they are missing, deserialised lazily into two global
    variables on the first form submission, and used by the root route to
    turn a thirteen-column input row into four predicted quantities.

    The embedding threads an explicit [World] (file system, the two global
    cache variables, and a trace of the observable actions) through a small
    state-and-exception monad.  Everything the program calls but does not
    define (the network, the operating system, joblib, the float parser, the
    fitted encoders, scaler and estimator) is collected in the class [Env]
    or stored, as functions, inside the deserialised bundles. *)

From Stdlib Require Import ZArith List String Ascii Lia Bool DecimalString.
From Stdlib Require Import Floats.SpecFloat.
From stdpp Require Import base gmap strings list fin_maps pretty.

Local Open Scope string_scope.
Local Open Scope list_scope.
Local Open Scope Z_scope.

(** ** Python values *)

(** A Python [float] (and a numpy [float64]) is an IEEE 754 binary64 number. *)
Definition float : Type := spec_float.

Definition float_of_Z (z : Z) : float := binary_normalize 53 1024 z 0 false.

(** The float denoted by the decimal literal [num/den], [den] a power of ten. *)
Definition float_lit (num den : Z) : float :=
  SFdiv 53 1024 (float_of_Z num) (float_of_Z den).

(** Exceptions, all of them subclasses of Python's [Exception]. *)
Inductive exn : Type :=
  | ConnectionError (url : string)
  | HTTPError (status : Z)
  | OSError (op path : string)
  | FileNotFoundError (path : string)
  | UnpicklingError (path : string)
  | KeyError (key : string)
  | ValueError (what : string)
  | TypeError (what : string)
  | AttributeError (attr : string)
  | IndexError (index : nat).

(** The result of a call into a library object: a value or an exception. *)
Inductive outcome (A : Type) : Type :=
  | Returns (a : A)
  | Throws (e : exn).
Arguments Returns {A} a.
Arguments Throws {A} e.

#[global] Instance outcome_ret : MRet outcome := fun A a => Returns a.
#[global] Instance outcome_bind : MBind outcome := fun A B k o =>
  match o with
  | Returns a => k a
  | Throws e => Throws e
  end.

(** A cell of the one-row data frame. *)
Inductive cell : Type :=
  | CStr (s : string)
  | CInt (z : Z)
  | CFloat (x : float).

(** The one-row data frame [X_input]: its columns in order. *)
Definition row : Type := list (string * cell).

(** The objects stored in the two joblib bundles.  They are opaque to the
    program, which only calls [predict] on the estimator, [transform] on the
    encoders and on the scaler, and indexes the frame with the column list. *)
Inductive pyobj : Type :=
  | Estimator (predict : row -> outcome (list (list float)))
  | EncoderDict (items : list (string * (string -> option Z)))
  | Scaler (transform : list cell -> outcome (list float))
  | ColumnList (cols : list string)
  | OtherObj.

(** ** The world *)

Inductive message : Type :=
  | MsgNoUrl (path : string)
  | MsgDownloading (path url : string)
  | MsgSaved (path : string)
  | MsgFailed (path : string) (e : exn)
  | MsgExists (path : string)
  | MsgLoading
  | MsgLoaded.

Inductive event : Type :=
  | EvPrint (m : message)
  | EvHttpGet (url : string)
  | EvJoblibLoad (path : string)
  | EvPredict.

Record World : Type := mkWorld {
  fs : gmap string (list Byte.byte);
  model_bundle : option (gmap string pyobj);
  enc_data : option (gmap string pyobj);
  trace : list event
}.

Inductive http_reply : Type :=
  | NoReply
  | Response (status_code : Z) (content : list Byte.byte).

(** What the program relies on without defining it. *)
Class Env : Type := {
  (** the process environment, [os.environ] *)
  os_environ : gmap string string;
  (** the network's answer to [requests.get(url, timeout=120)] *)
  requests_get : World -> string -> http_reply;
  (** whether [open(path, "wb")] succeeds *)
  open_wb : World -> string -> bool;
  (** [f.write(data)]: [None] when all of [data] is written, [Some n] when
      the write fails after [n] bytes *)
  file_write : World -> string -> list Byte.byte -> option nat;
  (** joblib's deserialiser; [None] when the data is not a valid dump.  A
      dump holds a dictionary, which is how the handler uses both bundles. *)
  unpickle : list Byte.byte -> option (gmap string pyobj);
  (** [float(s)] on a string; [None] is a [ValueError] *)
  float_of_string : string -> option float;
  (** [str(x)] on a float *)
  str_of_float : float -> string;
  (** [round(x, ndigits)] on a float *)
  py_round : float -> Z -> float
}.

(** ** The state-and-exception monad *)

Inductive Res (A : Type) : Type :=
  | Ok (a : A) (w : World)
  | Raise (e : exn) (w : World).
Arguments Ok {A} a w.
Arguments Raise {A} e w.

Definition M (A : Type) : Type := World -> Res A.

Definition ret {A} (a : A) : M A := fun w => Ok a w.

Definition bind {A B} (m : M A) (k : A -> M B) : M B :=
  fun w => match m w with
           | Ok a w' => k a w'
           | Raise e w' => Raise e w'
           end.

Definition raise {A} (e : exn) : M A := fun w => Raise e w.

(** [try: body / except Exception as e: handler e] *)
Definition try_except {A} (body : M A) (handler : exn -> M A) : M A :=
  fun w => match body w with
           | Ok a w' => Ok a w'
           | Raise e w' => handler e w'
           end.

Definition lift {A} (o : outcome A) : M A :=
  match o with
  | Returns a => ret a
  | Throws e => raise e
  end.

Declare Scope py_scope.
Delimit Scope py_scope with py.
Notation "x <- c1 ;; c2" := (bind c1 (fun x => c2))
  (at level 100, c1 at next level, right associativity) : py_scope.
Notation "c1 ;; c2" := (bind c1 (fun _ => c2))
  (at level 100, right associativity) : py_scope.
Local Open Scope py_scope.

Definition final_world {A} (r : Res A) : World :=
  match r with
  | Ok _ w => w
  | Raise _ w => w
  end.

Definition log (e : event) : M unit :=
  fun w => Ok tt (mkWorld (fs w) (model_bundle w) (enc_data w) (trace w ++ [e])).

Definition print (m : message) : M unit := log (EvPrint m).

Definition set_fs (f : gmap string (list Byte.byte)) : M unit :=
  fun w => Ok tt (mkWorld f (model_bundle w) (enc_data w) (trace w)).

Definition set_model_bundle (v : option (gmap string pyobj)) : M unit :=
  fun w => Ok tt (mkWorld (fs w) v (enc_data w) (trace w)).

Definition set_enc_data (v : option (gmap string pyobj)) : M unit :=
  fun w => Ok tt (mkWorld (fs w) (model_bundle w) v (trace w)).

(** ** CONFIG: file paths and environment URLs *)

Definition MODEL_PATH : string := "concrete_mix_model_checked.joblib".
Definition ENC_PATH : string := "mix_encoders_checked.joblib".

Definition MODEL_URL `{Env} : option string := os_environ !! "MODEL_URL".
Definition ENC_URL `{Env} : option string := os_environ !! "ENC_URL".

(** ** [download_if_missing] *)

(** Truth value of [url]: [None] and the empty string are falsy. *)
Definition truthy (url : option string) : bool :=
  match url with
  | None => false
  | Some "" => false
  | Some _ => true
  end.

Definition os_path_exists (path : string) : M bool :=
  fun w => Ok (bool_decide (is_Some (fs w !! path))) w.

(** [requests.get(url, timeout=120)] *)
Definition http_get `{Env} (url : string) : M (Z * list Byte.byte) :=
  fun w =>
    match requests_get w url with
    | NoReply => (log (EvHttpGet url) ;; raise (ConnectionError url)) w
    | Response st body => (log (EvHttpGet url) ;; ret (st, body)) w
    end.

(** [response.raise_for_status()] *)
Definition raise_for_status (response : Z * list Byte.byte) : M unit :=
  if (400 <=? fst response) && (fst response <? 600)
  then raise (HTTPError (fst response))
  else ret tt.

(** [with open(path, "wb") as f: f.write(data)].  Opening creates the file
    (or truncates it); the write then fills it, completely or up to the
    point where it fails. *)
Definition write_file `{Env} (path : string) (data : list Byte.byte) : M unit :=
  fun w =>
    if open_wb w path then
      (set_fs (<[path := []]> (fs w)) ;;
       fun w1 =>
         match file_write w1 path data with
         | None => set_fs (<[path := data]> (fs w1)) w1
         | Some n => (set_fs (<[path := take n data]> (fs w1)) ;;
                      raise (OSError "write" path)) w1
         end) w
    else raise (OSError "open" path) w.

Definition download_if_missing `{Env} (url : option string) (path : string) : M unit :=
  if negb (truthy url) then
    print (MsgNoUrl path)
  else
    let url := default "" url in
    present <- os_path_exists path ;;
    if negb present then
      print (MsgDownloading path url) ;;
      try_except
        (response <- http_get url ;;
         raise_for_status response ;;
         write_file path (snd response) ;;
         print (MsgSaved path))
        (fun e => print (MsgFailed path e))
    else
      print (MsgExists path).

(** ** Download models (only first-time) and the module-level globals *)

(** The statements executed when the module is imported: the two downloads,
    then the initialisation of the two cache variables. *)
Definition module_init `{Env} : M unit :=
  download_if_missing MODEL_URL MODEL_PATH ;;
  download_if_missing ENC_URL ENC_PATH ;;
  set_model_bundle None ;;
  set_enc_data None.

(** ** [ensure_model_loaded] *)

(** [joblib.load(path)] *)
Definition joblib_load `{Env} (path : string) : M (gmap string pyobj) :=
  log (EvJoblibLoad path) ;;
  fun w =>
    match fs w !! path with
    | None => raise (FileNotFoundError path) w
    | Some data =>
        match unpickle data with
        | Some obj => ret obj w
        | None => raise (UnpicklingError path) w
        end
    end.

Definition is_None {A} (o : option A) : bool :=
  match o with
  | None => true
  | Some _ => false
  end.

Definition ensure_model_loaded `{Env}
  : M (option (gmap string pyobj) * option (gmap string pyobj)) :=
  (fun w =>
     if is_None (model_bundle w) || is_None (enc_data w) then
       (print MsgLoading ;;
        m <- joblib_load MODEL_PATH ;;
        set_model_bundle (Some m) ;;
        e <- joblib_load ENC_PATH ;;
        set_enc_data (Some e) ;;
        print MsgLoaded) w
     else ret tt w) ;;
  fun w => ret (model_bundle w, enc_data w) w.

(** ** The request and the response *)

Inductive http_method : Type := GET | POST.

Record Request : Type := mkRequest {
  method : http_method;
  path : string;
  form : list (string * string)
}.

(** A response is a rendered template, represented by the template's name
    and the [results] passed to it (the template text itself plays no part
    in the handlers), a plain body with a status, or one of the framework's
    error pages. *)
Inductive response : Type :=
  | Rendered (template : string) (results : option (list (string * float)))
  | Body (text : string) (status : Z)
  | ErrorPage (status : Z).

Definition render_template (template : string)
  (results : option (list (string * float))) : M response :=
  ret (Rendered template results).

(** [request.form.get(key, default)]: the first value sent for [key]. *)
Fixpoint form_get (form : list (string * string)) (key : string) (dflt : cell) : cell :=
  match form with
  | [] => dflt
  | (k, v) :: rest => if String.eqb k key then CStr v else form_get rest key dflt
  end.

(** [float(v)] *)
Definition py_float `{Env} (v : cell) : outcome float :=
  match v with
  | CStr s =>
      match float_of_string s with
      | Some x => Returns x
      | None => Throws (ValueError s)
      end
  | CInt z => Returns (float_of_Z z)
  | CFloat x => Returns x
  end.

(** [str(v)], as applied by [astype(str)] *)
Definition py_str `{Env} (v : cell) : string :=
  match v with
  | CStr s => s
  | CInt z => pretty z
  | CFloat x => str_of_float x
  end.

(** [d[key]] on a cached bundle *)
Definition subscript (d : option (gmap string pyobj)) (key : string) : outcome pyobj :=
  match d with
  | None => Throws (TypeError "NoneType")
  | Some d =>
      match d !! key with
      | Some v => Returns v
      | None => Throws (KeyError key)
      end
  end.

(** [X[col]] *)
Fixpoint row_lookup (X : row) (col : string) : option cell :=
  match X with
  | [] => None
  | (c, v) :: rest => if String.eqb c col then Some v else row_lookup rest col
  end.

Definition getitem (X : row) (col : string) : outcome cell :=
  match row_lookup X col with
  | Some v => Returns v
  | None => Throws (KeyError col)
  end.

(** [X[col] = v]: an existing column is overwritten in place, a new one is
    appended. *)
Fixpoint setitem (X : row) (col : string) (v : cell) : row :=
  match X with
  | [] => [(col, v)]
  | (c, old) :: rest =>
      if String.eqb c col then (c, v) :: rest else (c, old) :: setitem rest col v
  end.

(** The five values read from the form. *)
Record Inputs : Type := mkInputs {
  fck : float;
  cement_type : cell;
  agg_type : cell;
  max_size : float;
  fine_zone : cell
}.

Definition read_form `{Env} (request : Request) : outcome Inputs :=
  fck ← py_float (form_get (form request) "Grade_fck" (CInt 30));
  let cement_type := form_get (form request) "Cement_Type" (CStr "OPC43") in
  let agg_type := form_get (form request) "Aggregate_Type" (CStr "Crushed") in
  max_size ← py_float (form_get (form request) "Max_Aggregate_Size_mm" (CInt 20));
  let fine_zone := form_get (form request) "Fine_Agg_Zone" (CStr "II") in
  mret (mkInputs fck cement_type agg_type max_size fine_zone).

(** [pd.DataFrame([{...}])] *)
Definition X_input (i : Inputs) : row :=
  [ ("Grade_fck", CFloat (fck i));
    ("Cement_Type", cement_type i);
    ("Max_Aggregate_Size_mm", CFloat (max_size i));
    ("Aggregate_Type", agg_type i);
    ("Fine_Agg_Zone", fine_zone i);
    ("Exposure_Condition", CStr "Severe");
    ("Workability_Slump_mm", CInt 75);
    ("Admixture_Type", CStr "Superplasticizer");
    ("Admixture_Dosage_%", CFloat (float_lit 10 10));
    ("Mineral_Admixture_%", CFloat (float_lit 0 10));
    ("w_c_ratio", CFloat (float_lit 38 100));
    ("Factor_X", CFloat (float_lit 165 100));
    ("Std_Deviation_S", CFloat (float_lit 50 10)) ].

(** [for col, le in encoders.items(): X[col] = le.transform(X[col].astype(str))] *)
Fixpoint encode_columns `{Env} (items : list (string * (string -> option Z)))
  (X : row) : outcome row :=
  match items with
  | [] => Returns X
  | (col, le) :: rest =>
      v ← getitem X col;
      match le (py_str v) with
      | Some code => encode_columns rest (setitem X col (CInt code))
      | None => Throws (ValueError (py_str v))
      end
  end.

Definition encode `{Env} (encoders : pyobj) (X : row) : outcome row :=
  match encoders with
  | EncoderDict items => encode_columns items X
  | _ => Throws (AttributeError "items")
  end.

(** [X[cols]] *)
Fixpoint select_columns (X : row) (cols : list string) : outcome (list cell) :=
  match cols with
  | [] => Returns []
  | c :: rest =>
      v ← getitem X c;
      vs ← select_columns X rest;
      mret (v :: vs)
  end.

(** [X[cols] = values] *)
Fixpoint assign_columns (X : row) (cols : list string) (values : list float)
  : outcome row :=
  match cols, values with
  | [], [] => Returns X
  | c :: cols', v :: values' => assign_columns (setitem X c (CFloat v)) cols' values'
  | _, _ => Throws (ValueError "shape mismatch")
  end.

(** [X[num_cols] = scaler.transform(X[num_cols])] *)
Definition scale_columns (scaler num_cols : pyobj) (X : row) : outcome row :=
  match scaler with
  | Scaler transform =>
      match num_cols with
      | ColumnList cols =>
          cells ← select_columns X cols;
          scaled ← transform cells;
          assign_columns X cols scaled
      | _ => Throws (TypeError "num_cols")
      end
  | _ => Throws (AttributeError "transform")
  end.

(** [model.predict(X)[0]] *)
Definition predict_first (model : pyobj) (X : row) : M (list float) :=
  match model with
  | Estimator predict =>
      log EvPredict ;;
      y <- lift (predict X) ;;
      match y with
      | y0 :: _ => ret y0
      | [] => raise (IndexError 0)
      end
  | _ => raise (AttributeError "predict")
  end.

(** [y_pred[i]] *)
Definition item (y_pred : list float) (i : nat) : outcome float :=
  match nth_error y_pred i with
  | Some x => Returns x
  | None => Throws (IndexError i)
  end.

(** ** ROUTES *)

Definition index `{Env} (request : Request) : M response :=
  match method request with
  | POST =>
      loaded <- ensure_model_loaded ;;
      model <- lift (subscript (fst loaded) "model") ;;
      encoders <- lift (subscript (snd loaded) "encoders") ;;
      scaler <- lift (subscript (snd loaded) "scaler") ;;
      num_cols <- lift (subscript (snd loaded) "num_cols") ;;
      inputs <- lift (read_form request) ;;
      X <- lift (encode encoders (X_input inputs)) ;;
      X <- lift (scale_columns scaler num_cols X) ;;
      y_pred <- predict_first model X ;;
      y0 <- lift (item y_pred 0) ;;
      y1 <- lift (item y_pred 1) ;;
      y2 <- lift (item y_pred 2) ;;
      y3 <- lift (item y_pred 3) ;;
      render_template "index.html"
        (Some [ ("Cementitious_Content_kgm3", py_round y0 2);
                ("Water_Content_kgm3", py_round y1 2);
                ("Fine_Agg_kgm3", py_round y2 2);
                ("Coarse_Agg_kgm3", py_round y3 2) ])
  | GET => render_template "index.html" None
  end.

Definition health : M (string * Z) := ret ("ok", 200).

(** The URL map built by the two [@app.route] decorators. *)
Definition dispatch `{Env} (request : Request) : M response :=
  if String.eqb (path request) "/" then
    index request
  else if String.eqb (path request) "/health" then
    match method request with
    | GET => r <- health ;; ret (Body (fst r) (snd r))
    | POST => ret (ErrorPage 405)
    end
  else ret (ErrorPage 404).

(** ** Observations on traces *)

Definition is_http_get (e : event) : bool :=
  match e with
  | EvHttpGet _ => true
  | _ => false
  end.

Definition is_joblib_load (path : string) (e : event) : bool :=
  match e with
  | EvJoblibLoad p => String.eqb p path
  | _ => false
  end.

Definition is_predict (e : event) : bool :=
  match e with
  | EvPredict => true
  | _ => false
  end.

(** Number of HTTP requests, of deserialisations of [path], and of calls to
    the estimator recorded in a trace. *)
Definition http_gets (t : list event) : nat := length (List.filter is_http_get t).
Definition joblib_loads (path : string) (t : list event) : nat :=
  length (List.filter (is_joblib_load path) t).
Definition predictions (t : list event) : nat := length (List.filter is_predict t).

(** The world [w] extended with the events [evs], everything else equal. *)
Definition with_events (w : World) (evs : list event) : World :=
  mkWorld (fs w) (model_bundle w) (enc_data w) (trace w ++ evs).

(** The two bundles are at hand in [w]: they are cached already, or the cache
    is incomplete and both files are present and are valid joblib dumps. *)
Definition artifacts_ready `{Env} (w : World) (mi ei : gmap string pyobj) : Prop :=
  (model_bundle w = Some mi /\ enc_data w = Some ei) \/
  ((model_bundle w = None \/ enc_data w = None) /\
   fs w !! MODEL_PATH ≫= unpickle = Some mi /\
   fs w !! ENC_PATH ≫= unpickle = Some ei).

(** The worlds a download of [path] from [u] started in [w] goes through:
    the one in which the network is consulted, the one in which the file is
    opened, and the one in which it is written. *)
Definition announced (w : World) (path u : string) : World :=
  with_events w [EvPrint (MsgDownloading path u)].

Definition requested (w : World) (path u : string) : World :=
  with_events (announced w path u) [EvHttpGet u].

Definition created (w : World) (path u : string) : World :=
  mkWorld (<[path := []]> (fs w)) (model_bundle w) (enc_data w)
          (trace (requested w path u)).

(** The shapes of the trace of one call of [download_if_missing]: a single
    printed line, or an announcement, one request and a verdict. *)
Inductive download_events (url : option string) (path : string) : list event -> Prop :=
  | download_none (m : message) :
      (m = MsgNoUrl path \/ m = MsgExists path) ->
      download_events url path [EvPrint m]
  | download_once (u : string) (m : message) :
      url = Some u ->
      (m = MsgSaved path \/ exists e, m = MsgFailed path e) ->
      download_events url path
        [EvPrint (MsgDownloading path u); EvHttpGet u; EvPrint m].

(** The exception [joblib.load(path)] raises in [w] when it does not return. *)
Definition load_error (w : World) (path : string) : exn :=
  match fs w !! path with
  | None => FileNotFoundError path
  | Some _ => UnpicklingError path
  end.

(** [key] is not among the submitted form fields. *)
Definition absent (form : list (string * string)) (key : string) : Prop :=
  forall v, ~ In (key, v) form.

(** The values used when no form field is submitted. *)
Definition default_inputs : Inputs :=
  mkInputs (float_of_Z 30) (CStr "OPC43") (CStr "Crushed") (float_of_Z 20) (CStr "II").

(** The context handed to the template after a prediction [y]. *)
Definition results_of `{Env} (y0 y1 y2 y3 : float) : list (string * float) :=
  [ ("Cementitious_Content_kgm3", py_round y0 2);
    ("Water_Content_kgm3", py_round y1 2);
    ("Fine_Agg_kgm3", py_round y2 2);
    ("Coarse_Agg_kgm3", py_round y3 2) ].


(** The state of the two cache variables the program can reach: the encoder
    bundle is assigned only after the model bundle. *)
Definition well_formed_cache (w : World) : Prop :=
  is_Some (enc_data w) -> is_Some (model_bundle w).

(** A computation that stays off the network, leaves the files alone and
    calls the estimator at most [n] times. *)
Definition stays_local {A} (n : nat) (m : M A) : Prop :=
  forall w,
    fs (final_world (m w)) = fs w /\
    http_gets (trace (final_world (m w))) = http_gets (trace w) /\
    (predictions (trace w) <= predictions (trace (final_world (m w))) <=
       predictions (trace w) + n)%nat.

(** The five form fields the handler reads. *)
Definition form_fields : list string :=
  [ "Grade_fck"; "Cement_Type"; "Aggregate_Type";
    "Max_Aggregate_Size_mm"; "Fine_Agg_Zone" ].

(** The request [request] carrying the form [form] instead of its own. *)
Definition with_form (request : Request) (form : list (string * string)) : Request :=
  mkRequest (method request) (path request) form.

(** ** A reference environment

    Concrete stand-ins for the libraries, used to run the program on
    examples: a float parser for decimal integer literals, numpy's rounding
    (scale, round to the nearest integer, unscale), two small bundles and a
    deserialiser that recognises them. *)
Module Demo.

Definition parse_float (s : string) : option float :=
  if String.eqb s "" then None
  else if String.eqb s "-" then None
  else (fun i => float_of_Z (Z.of_int i)) <$> NilEmpty.int_of_string s.

(** Round to the nearest integer, ties to even. *)
Definition rint (x : float) : float :=
  match x with
  | S754_finite s m e =>
      if e <? 0 then
        let big := float_of_Z (2 ^ 52) in
        let r := SFsub 53 1024 (SFadd 53 1024 (S754_finite false m e) big) big in
        if s then SFopp r else r
      else x
  | _ => x
  end.

Definition round (x : float) (ndigits : Z) : float :=
  let p := float_of_Z (10 ^ ndigits) in
  SFdiv 53 1024 (rint (SFmul 53 1024 x p)) p.

(** Exact on integral values, which is all the examples need. *)
Definition repr (x : float) : string :=
  match x with
  | S754_zero _ => "0.0"
  | S754_finite s m e =>
      if 0 <=? e then pretty (SpecFloat.cond_Zopp s (Z.pos m * 2 ^ e)) +:+ ".0"
      else if Z.pos m mod 2 ^ (- e) =? 0
           then pretty (SpecFloat.cond_Zopp s (Z.pos m / 2 ^ (- e))) +:+ ".0"
           else pretty (SpecFloat.cond_Zopp s (Z.pos m)) +:+ "*2**" +:+ pretty e
  | S754_infinity s => if s then "-inf" else "inf"
  | S754_nan => "nan"
  end.

Definition label_encoder (classes : list string) (label : string) : option Z :=
  Z.of_nat <$> (fst <$> list_find (String.eqb label) classes).

Definition encoders : list (string * (string -> option Z)) :=
  [ ("Cement_Type", label_encoder ["OPC43"; "OPC53"; "PPC"]);
    ("Aggregate_Type", label_encoder ["Crushed"; "Rounded"]);
    ("Fine_Agg_Zone", label_encoder ["I"; "II"; "III"; "IV"]);
    ("Exposure_Condition", label_encoder ["Mild"; "Moderate"; "Severe"]);
    ("Admixture_Type", label_encoder ["None"; "Superplasticizer"]) ].

Definition num_cols : list string :=
  [ "Grade_fck"; "Max_Aggregate_Size_mm"; "Workability_Slump_mm"; "w_c_ratio" ].

Definition as_number (c : cell) : outcome float :=
  match c with
  | CFloat x => Returns x
  | CInt z => Returns (float_of_Z z)
  | CStr s => Throws (ValueError s)
  end.

(** A scaler with zero mean and scale ten. *)
Definition scaler_transform (cells : list cell) : outcome (list float) :=
  mapM (fun c => x ← as_number c; mret (SFdiv 53 1024 x (float_of_Z 10))) cells.

(** A linear toy estimator in the scaled grade. *)
Definition predict (X : row) : outcome (list (list float)) :=
  g ← getitem X "Grade_fck";
  x ← as_number g;
  mret [ [ SFadd 53 1024 (SFmul 53 1024 x (float_lit 333 10)) (float_lit 28456 100);
           float_lit 186 1;
           float_lit 70125 100;
           float_lit 1104875 1000 ] ].

Definition model_info : gmap string pyobj :=
  {[ "model" := Estimator predict ]}.

Definition enc_info : gmap string pyobj :=
  {[ "encoders" := EncoderDict encoders;
     "scaler" := Scaler scaler_transform;
     "num_cols" := ColumnList num_cols ]}.

Definition model_dump : list Byte.byte := [Byte.x80; Byte.x01].
Definition enc_dump : list Byte.byte := [Byte.x80; Byte.x02].

Definition loads (data : list Byte.byte) : option (gmap string pyobj) :=
  match data with
  | [Byte.x80; Byte.x01] => Some model_info
  | [Byte.x80; Byte.x02] => Some enc_info
  | _ => None
  end.

Definition environ : gmap string string :=
  {[ "MODEL_URL" := "https://example.org/model.joblib";
     "ENC_URL" := "https://example.org/encoders.joblib" ]}.

(** A server that has the two dumps and nothing else. *)
Definition server (url : string) : http_reply :=
  if String.eqb url "https://example.org/model.joblib" then Response 200 model_dump
  else if String.eqb url "https://example.org/encoders.joblib" then Response 200 enc_dump
  else Response 404 [].

(** Everything works. *)
Definition env : Env :=
  {| os_environ := environ;
     requests_get := fun _ url => server url;
     open_wb := fun _ _ => true;
     file_write := fun _ _ _ => None;
     unpickle := loads;
     float_of_string := parse_float;
     str_of_float := repr;
     py_round := round |}.

(** The network is down. *)
Definition offline : Env :=
  {| os_environ := environ;
     requests_get := fun _ _ => NoReply;
     open_wb := fun _ _ => true;
     file_write := fun _ _ _ => None;
     unpickle := loads;
     float_of_string := parse_float;
     str_of_float := repr;
     py_round := round |}.

(** The disk is full: files can be created but nothing can be written. *)
Definition disk_full : Env :=
  {| os_environ := environ;
     requests_get := fun _ url => server url;
     open_wb := fun _ _ => true;
     file_write := fun _ _ _ => Some 0%nat;
     unpickle := loads;
     float_of_string := parse_float;
     str_of_float := repr;
     py_round := round |}.

(** A process that has just started in an empty directory. *)
Definition fresh : World := mkWorld ∅ None None [].

(** Both artifacts on disk, nothing cached. *)
Definition installed : World :=
  mkWorld {[ MODEL_PATH := model_dump; ENC_PATH := enc_dump ]} None None [].

(** Only the model file on disk. *)
Definition model_only : World :=
  mkWorld {[ MODEL_PATH := model_dump ]} None None [].

Definition post (form : list (string * string)) : Request :=
  mkRequest POST "/" form.

End Demo.

(** ** A faulty estimator

    A bundle whose estimator returns two values where the handler reads
    four, already cached. *)
Module Faulty.

Definition predict (X : row) : outcome (list (list float)) :=
  Returns [ [ float_of_Z 350; float_of_Z 186 ] ].

Definition model_info : gmap string pyobj :=
  {[ "model" := Estimator predict ]}.

Definition cached : World :=
  mkWorld ∅ (Some model_info) (Some Demo.enc_info) [].

End Faulty.

(** * Properties *)

Section Properties.
Context `{E : Env}.

(** ** Traces *)

Lemma http_gets_app (t u : list event) :
  http_gets (t ++ u) = (http_gets t + http_gets u)%nat.
Proof. unfold http_gets. by rewrite List.filter_app, length_app. Qed.


Lemma predictions_app (t u : list event) :
  predictions (t ++ u) = (predictions t + predictions u)%nat.
Proof. unfold predictions. by rewrite List.filter_app, length_app. Qed.

Lemma with_events_nil (w : World) : with_events w [] = w.
Proof. destruct w; unfold with_events; simpl. by rewrite app_nil_r. Qed.

Lemma with_events_app (w : World) (t u : list event) :
  with_events (with_events w t) u = with_events w (t ++ u).
Proof. unfold with_events; simpl. by rewrite app_assoc. Qed.

(** ** The download *)

Lemma truthy_Some (url : option string) :
  truthy url = true -> exists u, url = Some u /\ u <> "".
Proof.
  destruct url as [[|a u]|]; simpl; try discriminate.
  intros _. eexists; split; [reflexivity | discriminate].
Qed.

(** When there is nothing to fetch or no address to fetch it from, the
    call prints one line and does nothing else. *)
Lemma download_skipped (url : option string) (path : string) (w : World) :
  is_Some (fs w !! path) \/ truthy url = false ->
  exists m, download_if_missing url path w = Ok tt (with_events w [EvPrint m]).
Proof.
  intros H. unfold download_if_missing.
  destruct (truthy url) eqn:Hu; simpl.
  - destruct H as [H|H]; [|discriminate].
    unfold bind, os_path_exists. rewrite bool_decide_eq_true_2 by done.
    simpl. by eexists.
  - by eexists.
Qed.

(** The worlds in which the network, then [open], are consulted during a
    download of [path] from [u] started in [w]. *)
Lemma download_attempt (u : string) (path : string) (w : World) :
  u <> "" -> fs w !! path = None ->
  download_if_missing (Some u) path w =
    try_except
      (response <- http_get u ;;
       raise_for_status response ;;
       write_file path (snd response) ;;
       print (MsgSaved path))
      (fun e => print (MsgFailed path e))
      (announced w path u).
Proof.
  intros Hu Hp. unfold download_if_missing.
  destruct u as [|a u]; [done|]. simpl.
  unfold bind at 1. unfold os_path_exists. rewrite bool_decide_eq_false_2.
  2:{ rewrite Hp. by intros [? ?]. }
  simpl. reflexivity.
Qed.

Lemma download_no_reply (u path : string) (w : World) :
  u <> "" -> fs w !! path = None ->
  requests_get (announced w path u) u = NoReply ->
  download_if_missing (Some u) path w =
    Ok tt (with_events (requested w path u)
             [EvPrint (MsgFailed path (ConnectionError u))]).
Proof.
  intros Hu Hp Hr. rewrite download_attempt by done.
  unfold try_except, bind at 1, http_get. rewrite Hr. reflexivity.
Qed.

Lemma download_bad_status (u path : string) (w : World) st body :
  u <> "" -> fs w !! path = None ->
  requests_get (announced w path u) u = Response st body ->
  400 <= st < 600 ->
  download_if_missing (Some u) path w =
    Ok tt (with_events (requested w path u)
             [EvPrint (MsgFailed path (HTTPError st))]).
Proof.
  intros Hu Hp Hr Hst. rewrite download_attempt by done.
  unfold try_except, bind at 1, http_get. rewrite Hr.
  cbn. unfold raise_for_status. cbn.
  replace (400 <=? st) with true by (symmetry; apply Z.leb_le; lia).
  replace (st <? 600) with true by (symmetry; apply Z.ltb_lt; lia).
  reflexivity.
Qed.

Lemma download_open_fails (u path : string) (w : World) st body :
  u <> "" -> fs w !! path = None ->
  requests_get (announced w path u) u = Response st body ->
  ~ 400 <= st < 600 ->
  open_wb (requested w path u) path = false ->
  download_if_missing (Some u) path w =
    Ok tt (with_events (requested w path u)
             [EvPrint (MsgFailed path (OSError "open" path))]).
Proof.
  intros Hu Hp Hr Hst Ho. rewrite download_attempt by done.
  unfold try_except, bind at 1, http_get. rewrite Hr.
  cbn. unfold raise_for_status. cbn.
  replace ((400 <=? st) && (st <? 600)) with false.
  2:{ symmetry. apply andb_false_iff.
      destruct (Z.leb_spec 400 st); [right|by left]. apply Z.ltb_ge. lia. }
  cbn. unfold write_file.
  change (mkWorld (fs w) (model_bundle w) (enc_data w) _) with (requested w path u).
  unfold bind at 1. cbn beta. rewrite Ho. reflexivity.
Qed.

Lemma download_write_fails (u path : string) (w : World) st body n :
  u <> "" -> fs w !! path = None ->
  requests_get (announced w path u) u = Response st body ->
  ~ 400 <= st < 600 ->
  open_wb (requested w path u) path = true ->
  file_write (created w path u) path body = Some n ->
  download_if_missing (Some u) path w =
    Ok tt (mkWorld (<[path := take n body]> (fs w)) (model_bundle w) (enc_data w)
             (trace (requested w path u) ++
                [EvPrint (MsgFailed path (OSError "write" path))])).
Proof.
  intros Hu Hp Hr Hst Ho Hw. rewrite download_attempt by done.
  unfold try_except, bind at 1, http_get. rewrite Hr.
  cbn. unfold raise_for_status. cbn.
  replace ((400 <=? st) && (st <? 600)) with false.
  2:{ symmetry. apply andb_false_iff.
      destruct (Z.leb_spec 400 st); [right|by left]. apply Z.ltb_ge. lia. }
  cbn. unfold write_file.
  change (mkWorld (fs w) (model_bundle w) (enc_data w) _) with (requested w path u).
  unfold bind at 1. cbn beta. rewrite Ho.
  unfold bind at 1, set_fs at 1.
  change (mkWorld (<[path:=[]]> (fs (requested w path u))) _ _ _) with (created w path u).
  rewrite Hw. cbn. by rewrite insert_insert_eq.
Qed.

Lemma download_saved (u path : string) (w : World) st body :
  u <> "" -> fs w !! path = None ->
  requests_get (announced w path u) u = Response st body ->
  ~ 400 <= st < 600 ->
  open_wb (requested w path u) path = true ->
  file_write (created w path u) path body = None ->
  download_if_missing (Some u) path w =
    Ok tt (mkWorld (<[path := body]> (fs w)) (model_bundle w) (enc_data w)
             (trace (requested w path u) ++ [EvPrint (MsgSaved path)])).
Proof.
  intros Hu Hp Hr Hst Ho Hw. rewrite download_attempt by done.
  unfold try_except, bind at 1, http_get. rewrite Hr.
  cbn. unfold raise_for_status. cbn.
  replace ((400 <=? st) && (st <? 600)) with false.
  2:{ symmetry. apply andb_false_iff.
      destruct (Z.leb_spec 400 st); [right|by left]. apply Z.ltb_ge. lia. }
  cbn. unfold write_file.
  change (mkWorld (fs w) (model_bundle w) (enc_data w) _) with (requested w path u).
  unfold bind at 1. cbn beta. rewrite Ho.
  unfold bind at 1, set_fs at 1.
  change (mkWorld (<[path:=[]]> (fs (requested w path u))) _ _ _) with (created w path u).
  rewrite Hw. cbn. by rewrite insert_insert_eq.
Qed.


(** Every call returns; it leaves the cache alone, extends the trace by
    one of the two shapes, and changes at most the file at [path], and
    that only when the file was missing. *)
Lemma download_runs (url : option string) (path : string) (w : World) :
  exists w' (evs : list event),
    download_if_missing url path w = Ok tt w' /\
    trace w' = trace w ++ evs /\
    model_bundle w' = model_bundle w /\
    enc_data w' = enc_data w /\
    download_events url path evs /\
    (fs w' = fs w \/
     fs w !! path = None /\ exists data, fs w' = <[path := data]> (fs w)).
Proof.
  destruct (truthy url) eqn:Hu.
  - apply truthy_Some in Hu as (u & -> & Hu).
    destruct (fs w !! path) as [data|] eqn:Hp.
    + unfold download_if_missing. destruct u as [|a u]; [done|]. simpl.
      unfold bind, os_path_exists. rewrite bool_decide_eq_true_2 by (rewrite Hp; eauto).
      simpl. eexists _, _. split; [reflexivity|]. simpl. split_and!; eauto.
      apply download_none. by right.
    + destruct (requests_get (announced w path u) u) as [|st body] eqn:Hr.
      { rewrite (download_no_reply u path w) by done.
        eexists _, _. split; [reflexivity|]. simpl. rewrite <- !app_assoc. simpl.
        split_and!; eauto. eapply download_once; eauto. }
      destruct (decide (400 <= st < 600)) as [Hst|Hst].
      { rewrite (download_bad_status u path w st body) by done.
        eexists _, _. split; [reflexivity|]. simpl. rewrite <- !app_assoc. simpl.
        split_and!; eauto. eapply download_once; eauto. }
      destruct (open_wb (requested w path u) path) eqn:Ho.
      2:{ rewrite (download_open_fails u path w st body) by done.
          eexists _, _. split; [reflexivity|]. simpl. rewrite <- !app_assoc. simpl.
          split_and!; eauto. eapply download_once; eauto. }
      destruct (file_write (created w path u) path body) as [n|] eqn:Hw.
      * rewrite (download_write_fails u path w st body n) by done.
        eexists _, _. split; [reflexivity|]. simpl. rewrite <- !app_assoc. simpl.
        split_and!; eauto. eapply download_once; eauto.
      * rewrite (download_saved u path w st body) by done.
        eexists _, _. split; [reflexivity|]. simpl. rewrite <- !app_assoc. simpl.
        split_and!; eauto. eapply download_once; eauto.
  - destruct (download_skipped url path w) as [m Hm]; [by right|].
    unfold download_if_missing in *. rewrite Hu in *. simpl in *.
    eexists _, _. split; [reflexivity|]. simpl.
    split_and!; eauto. apply download_none. by left.
Qed.

Lemma download_events_gets url path evs :
  download_events url path evs -> (http_gets evs <= 1)%nat.
Proof. destruct 1 as [m [-> | ->] | u m _ [-> | [e ->]]]; cbn; lia. Qed.

(** Nothing follows a failure verdict. *)
Lemma download_events_failed_last url path evs e pre post :
  download_events url path evs ->
  evs = pre ++ EvPrint (MsgFailed path e) :: post -> post = [].
Proof.
  destruct 1 as [m Hm | u m _ Hm]; intros Heq.
  - destruct pre as [|? [|? ?]]; simplify_eq/=; done.
  - destruct pre as [|? [|? [|? [|? ?]]]]; simplify_eq/=; done.
Qed.

Lemma download_events_url url path evs u :
  download_events url path evs -> In (EvHttpGet u) evs -> url = Some u.
Proof.
  destruct 1 as [m Hm | u' m -> Hm]; simpl; intros Hin.
  - destruct Hin as [?|[]]; simplify_eq.
  - destruct Hin as [?|[?|[?|[]]]]; simplify_eq. done.
Qed.

Lemma module_init_runs (w : World) :
  exists w1 w2 (evs1 evs2 : list event),
    download_if_missing MODEL_URL MODEL_PATH w = Ok tt w1 /\
    download_if_missing ENC_URL ENC_PATH w1 = Ok tt w2 /\
    module_init w = Ok tt (mkWorld (fs w2) None None (trace w2)) /\
    trace w1 = trace w ++ evs1 /\
    trace w2 = trace w1 ++ evs2 /\
    download_events MODEL_URL MODEL_PATH evs1 /\
    download_events ENC_URL ENC_PATH evs2.
Proof.
  destruct (download_runs MODEL_URL MODEL_PATH w) as (w1 & evs1 & H1 & T1 & _ & _ & D1 & _).
  destruct (download_runs ENC_URL ENC_PATH w1) as (w2 & evs2 & H2 & T2 & _ & _ & D2 & _).
  exists w1, w2, evs1, evs2. repeat split; try done.
  unfold module_init, bind. rewrite H1, H2. reflexivity.
Qed.

(** C4: when a file already exists at [path], a call of
    [download_if_missing] makes no HTTP request and leaves the file system,
    hence the file at [path], unchanged; a request is made, and the file
    system modified, only when the file is absent and a non-empty URL is
    given. *)
Theorem download_if_missing_existing_file
  (url : option string) (path : string) (w : World) :
  exists w',
    download_if_missing url path w = Ok tt w' /\
    (is_Some (fs w !! path) ->
       fs w' = fs w /\ http_gets (trace w') = http_gets (trace w)) /\
    (http_gets (trace w') <> http_gets (trace w) \/ fs w' <> fs w ->
       fs w !! path = None /\ truthy url = true).
Proof.
  destruct (truthy url) eqn:Hu; [destruct (fs w !! path) as [data|] eqn:Hp|].
  - destruct (download_skipped url path w) as [m Hm]; [left; rewrite Hp; eauto|].
    eexists. split; [exact Hm|]. simpl.
    rewrite http_gets_app. cbn. split; [intros _; split; [done|lia]|].
    intros [?|?]; [lia|done].
  - destruct (download_runs url path w) as (w' & evs & Hr & _).
    exists w'. split; [done|]. split; [by intros [? ?]|done].
  - destruct (download_skipped url path w) as [m Hm]; [by right|].
    eexists. split; [exact Hm|]. simpl.
    rewrite http_gets_app. cbn. split; [intros _; split; [done|lia]|].
    intros [?|?]; [lia|done].
Qed.

(** C5 (amended): [download_if_missing] never propagates an exception, and
    module initialisation always runs to its end.  A failure of the HTTP
    request (no reply, or an error status) or of opening the file is caught
    and logged and leaves the file system as it was, so the artifact is
    still absent; a failure of the write to the opened file is caught and
    logged as well, but leaves at [path] the part written before it. *)
Theorem download_if_missing_never_raises
  (url : option string) (path : string) (w : World) :
  (exists w', download_if_missing url path w = Ok tt w') /\
  (exists w', module_init w = Ok tt w') /\
  (forall u, url = Some u -> u <> "" -> fs w !! path = None ->
     let failed e :=
       download_if_missing url path w =
         Ok tt (with_events (requested w path u) [EvPrint (MsgFailed path e)]) in
     (requests_get (announced w path u) u = NoReply ->
        failed (ConnectionError u)) /\
     (forall st body,
        requests_get (announced w path u) u = Response st body ->
        (400 <= st < 600 -> failed (HTTPError st)) /\
        (~ 400 <= st < 600 ->
           (open_wb (requested w path u) path = false ->
              failed (OSError "open" path)) /\
           (forall n,
              open_wb (requested w path u) path = true ->
              file_write (created w path u) path body = Some n ->
              download_if_missing url path w =
                Ok tt (mkWorld (<[path := take n body]> (fs w))
                         (model_bundle w) (enc_data w)
                         (trace (requested w path u) ++
                            [EvPrint (MsgFailed path (OSError "write" path))])))))).
Proof.
  split; [|split].
  - destruct (download_runs url path w) as (w' & evs & Hr & _). eauto.
  - destruct (module_init_runs w) as (w1 & w2 & evs1 & evs2 & _ & _ & Hr & _). eauto.
  - intros u -> Hu Hp failed. subst failed. split.
    + intros Hr. by apply download_no_reply.
    + intros st body Hr. split; [intros Hst; by eapply download_bad_status|].
      intros Hst. split.
      * intros Ho. by eapply download_open_fails.
      * intros n Ho Hw. by eapply download_write_fails.
Qed.

(** C8: a call of [download_if_missing] performs at most one HTTP GET, and
    a logged failure is the last thing the call does; module initialisation
    consists of one such call per artifact, so it makes at most one request
    for the model, to [MODEL_URL], and at most one for the encoders, to
    [ENC_URL], whether or not an attempt fails. *)
Theorem download_if_missing_single_request
  (url : option string) (path : string) (w : World) :
  (exists w' (evs : list event),
     download_if_missing url path w = Ok tt w' /\
     trace w' = trace w ++ evs /\
     (http_gets evs <= 1)%nat /\
     (forall e pre post,
        evs = pre ++ EvPrint (MsgFailed path e) :: post -> post = [])) /\
  (exists w' (evs1 evs2 : list event),
     module_init w = Ok tt w' /\
     trace w' = trace w ++ evs1 ++ evs2 /\
     download_events MODEL_URL MODEL_PATH evs1 /\
     download_events ENC_URL ENC_PATH evs2 /\
     (http_gets evs1 <= 1)%nat /\
     (http_gets evs2 <= 1)%nat /\
     (http_gets (evs1 ++ evs2) <= 2)%nat /\
     (forall u, In (EvHttpGet u) evs1 -> MODEL_URL = Some u) /\
     (forall u, In (EvHttpGet u) evs2 -> ENC_URL = Some u)).
Proof.
  split.
  - destruct (download_runs url path w) as (w' & evs & Hr & Ht & _ & _ & Hd & _).
    exists w', evs. split_and!; try done.
    + by eapply download_events_gets.
    + intros e pre post. by eapply download_events_failed_last.
  - destruct (module_init_runs w)
      as (w1 & w2 & evs1 & evs2 & _ & _ & Hr & T1 & T2 & D1 & D2).
    pose proof (download_events_gets _ _ _ D1).
    pose proof (download_events_gets _ _ _ D2).
    eexists _, evs1, evs2. split; [exact Hr|]. simpl.
    split_and!; try done.
    + by rewrite T2, T1, app_assoc.
    + rewrite http_gets_app. lia.
    + intros u. by eapply download_events_url.
    + intros u. by eapply download_events_url.
Qed.

(** ** The lazy cache *)

Lemma joblib_load_spec (path : string) (w : World) :
  joblib_load path w =
    match fs w !! path with
    | None => Raise (FileNotFoundError path) (with_events w [EvJoblibLoad path])
    | Some data =>
        match unpickle data with
        | Some obj => Ok obj (with_events w [EvJoblibLoad path])
        | None => Raise (UnpicklingError path) (with_events w [EvJoblibLoad path])
        end
    end.
Proof.
  unfold joblib_load, bind, log. cbn.
  destruct (fs w !! path) as [data|]; [destruct (unpickle data)|]; reflexivity.
Qed.

(** A complete cache is returned as it is, and the world is not touched. *)
Lemma ensure_model_loaded_cached (w : World) m e :
  model_bundle w = Some m -> enc_data w = Some e ->
  ensure_model_loaded w = Ok (Some m, Some e) w.
Proof.
  intros Hm He. unfold ensure_model_loaded, bind. rewrite Hm, He. cbn.
  by rewrite Hm, He.
Qed.

(** With an incomplete cache the model file is deserialised and cached,
    then the encoder file; the first load that fails ends the call. *)
Lemma ensure_model_loaded_incomplete (w : World) :
  model_bundle w = None \/ enc_data w = None ->
  ensure_model_loaded w =
    match fs w !! MODEL_PATH ≫= unpickle with
    | None =>
        Raise (load_error w MODEL_PATH)
          (with_events w [EvPrint MsgLoading; EvJoblibLoad MODEL_PATH])
    | Some m =>
        match fs w !! ENC_PATH ≫= unpickle with
        | None =>
            Raise (load_error w ENC_PATH)
              (mkWorld (fs w) (Some m) (enc_data w)
                 (trace w ++ [EvPrint MsgLoading; EvJoblibLoad MODEL_PATH;
                              EvJoblibLoad ENC_PATH]))
        | Some e =>
            Ok (Some m, Some e)
              (mkWorld (fs w) (Some m) (Some e)
                 (trace w ++ [EvPrint MsgLoading; EvJoblibLoad MODEL_PATH;
                              EvJoblibLoad ENC_PATH; EvPrint MsgLoaded]))
        end
    end.
Proof.
  intros Hc. unfold ensure_model_loaded, load_error.
  unfold bind at 1.
  replace (is_None (model_bundle w) || is_None (enc_data w)) with true
    by (destruct Hc as [-> | ->]; simpl; by rewrite ?orb_true_r).
  unfold bind at 1. unfold bind at 1. unfold print at 1, log at 1.
  unfold bind at 1. rewrite joblib_load_spec. cbn [fs with_events].
  destruct (fs w !! MODEL_PATH) as [dm|]; cbn [mbind option_bind];
    [destruct (unpickle dm) as [m|]|];
    try (unfold with_events; cbn; rewrite <- ?app_assoc; by cbn).
  unfold bind at 1, set_model_bundle at 1.
  unfold bind at 1. rewrite joblib_load_spec. cbn [fs with_events].
  destruct (fs w !! ENC_PATH) as [de|]; cbn [mbind option_bind];
    [destruct (unpickle de) as [e|]|];
    unfold with_events, ret; cbn; rewrite <- ?app_assoc; by cbn.
Qed.

(** With an incomplete cache and two valid files both are deserialised. *)
Lemma ensure_model_loaded_loads (w : World) mi ei :
  model_bundle w = None \/ enc_data w = None ->
  fs w !! MODEL_PATH ≫= unpickle = Some mi ->
  fs w !! ENC_PATH ≫= unpickle = Some ei ->
  ensure_model_loaded w =
    Ok (Some mi, Some ei)
       (mkWorld (fs w) (Some mi) (Some ei)
          (trace w ++ [EvPrint MsgLoading; EvJoblibLoad MODEL_PATH;
                       EvJoblibLoad ENC_PATH; EvPrint MsgLoaded])).
Proof.
  intros Hc Hm He. by rewrite ensure_model_loaded_incomplete, Hm, He.
Qed.

Lemma ensure_model_loaded_ready (w : World) mi ei :
  artifacts_ready w mi ei ->
  exists w',
    ensure_model_loaded w = Ok (Some mi, Some ei) w' /\
    fs w' = fs w /\
    predictions (trace w') = predictions (trace w).
Proof.
  intros [[Hm He] | (Hc & Hm & He)].
  - exists w. by rewrite (ensure_model_loaded_cached w mi ei).
  - eexists. split; [by apply ensure_model_loaded_loads|]. simpl.
    split; [done|]. rewrite predictions_app. cbn. lia.
Qed.


Lemma index_post (request : Request) (w : World) :
  method request = POST ->
  index request w =
    (loaded <- ensure_model_loaded ;;
     model <- lift (subscript (fst loaded) "model") ;;
     encoders <- lift (subscript (snd loaded) "encoders") ;;
     scaler <- lift (subscript (snd loaded) "scaler") ;;
     num_cols <- lift (subscript (snd loaded) "num_cols") ;;
     inputs <- lift (read_form request) ;;
     X <- lift (encode encoders (X_input inputs)) ;;
     X <- lift (scale_columns scaler num_cols X) ;;
     y_pred <- predict_first model X ;;
     y0 <- lift (item y_pred 0) ;;
     y1 <- lift (item y_pred 1) ;;
     y2 <- lift (item y_pred 2) ;;
     y3 <- lift (item y_pred 3) ;;
     render_template "index.html" (Some (results_of y0 y1 y2 y3))) w.
Proof. intros H. unfold index. by rewrite H. Qed.

(** C6: when the cache is not complete, as on the first POST, and one of
    the two artifact files is absent, [ensure_model_loaded] raises, and the
    root-route handler, reached directly or through the URL map, ends with
    that same exception: nothing catches it.  An absent model file gives
    [FileNotFoundError] for the model; otherwise the model file is absent
    or invalid, or the encoder file is absent. *)
Theorem index_post_missing_artifact (request : Request) (w : World) :
  method request = POST ->
  model_bundle w = None \/ enc_data w = None ->
  fs w !! MODEL_PATH = None \/ fs w !! ENC_PATH = None ->
  exists e w',
    ensure_model_loaded w = Raise e w' /\
    index request w = Raise e w' /\
    (path request = "/" -> dispatch request w = Raise e w') /\
    (e = load_error w MODEL_PATH \/ e = FileNotFoundError ENC_PATH) /\
    (fs w !! MODEL_PATH = None -> e = FileNotFoundError MODEL_PATH).
Proof.
  intros Hpost Hc Habs.
  assert (exists e w',
            ensure_model_loaded w = Raise e w' /\
            (e = load_error w MODEL_PATH \/ e = FileNotFoundError ENC_PATH) /\
            (fs w !! MODEL_PATH = None -> e = FileNotFoundError MODEL_PATH))
    as (e & w' & Hr & He & Hm).
  { rewrite ensure_model_loaded_incomplete by done. unfold load_error.
    destruct (fs w !! MODEL_PATH) as [dm|] eqn:Fm; cbn [mbind option_bind].
    2:{ eexists _, _. split; [reflexivity|]. eauto. }
    destruct (unpickle dm) as [m|].
    2:{ eexists _, _. split; [reflexivity|]. split; [eauto|done]. }
    destruct Habs as [?|Fe]; [done|]. rewrite Fe. cbn [mbind option_bind].
    eexists _, _. split; [reflexivity|]. split; [eauto|done]. }
  assert (index request w = Raise e w') as Hi.
  { rewrite index_post by done. unfold bind at 1. by rewrite Hr. }
  exists e, w'. split_and!; try done.
  intros Hp. unfold dispatch. by rewrite Hp.
Qed.

(** C7: the health route answers the body "ok" with status 200 whatever
    the world is (files present or not, cache filled or not), and leaves
    the world as it found it; so does a GET of [/health] through the URL
    map, whatever form data it carries. *)
Theorem health_ok (w : World) (form : list (string * string)) :
  health w = Ok ("ok", 200) w /\
  dispatch (mkRequest GET "/health" form) w = Ok (Body "ok" 200) w.
Proof. split; reflexivity. Qed.

(** ** The root route *)

Lemma bind_lift_Returns {A B} (o : outcome A) (k : A -> M B) (a : A) (w : World) :
  o = Returns a -> (x <- lift o ;; k x) w = k a w.
Proof. by intros ->. Qed.

Lemma bind_lift_Throws {A B} (o : outcome A) (k : A -> M B) (e : exn) (w : World) :
  o = Throws e -> (x <- lift o ;; k x) w = Raise e w.
Proof. by intros ->. Qed.

Lemma subscript_Some (d : gmap string pyobj) (key : string) (v : pyobj) :
  d !! key = Some v -> subscript (Some d) key = Returns v.
Proof. unfold subscript. by intros ->. Qed.

(** A POST with the artifacts at hand gets past the loading and the four
    look-ups in the bundles without touching the files or the estimator. *)
Lemma index_post_ready (request : Request) (w : World)
  mi ei model encoders scaler num_cols :
  method request = POST ->
  artifacts_ready w mi ei ->
  mi !! "model" = Some model ->
  ei !! "encoders" = Some encoders ->
  ei !! "scaler" = Some scaler ->
  ei !! "num_cols" = Some num_cols ->
  exists w1,
    fs w1 = fs w /\
    predictions (trace w1) = predictions (trace w) /\
    index request w =
      (inputs <- lift (read_form request) ;;
       X <- lift (encode encoders (X_input inputs)) ;;
       X <- lift (scale_columns scaler num_cols X) ;;
       y_pred <- predict_first model X ;;
       y0 <- lift (item y_pred 0) ;;
       y1 <- lift (item y_pred 1) ;;
       y2 <- lift (item y_pred 2) ;;
       y3 <- lift (item y_pred 3) ;;
       render_template "index.html" (Some (results_of y0 y1 y2 y3))) w1.
Proof.
  intros Hpost Hready Hm He Hs Hn.
  destruct (ensure_model_loaded_ready w mi ei Hready) as (w1 & Hr & Hfs & Hp).
  exists w1. split_and!; try done.
  rewrite index_post by done. unfold bind at 1. rewrite Hr. cbn [fst snd].
  rewrite (bind_lift_Returns _ _ model) by by apply subscript_Some.
  rewrite (bind_lift_Returns _ _ encoders) by by apply subscript_Some.
  rewrite (bind_lift_Returns _ _ scaler) by by apply subscript_Some.
  rewrite (bind_lift_Returns _ _ num_cols) by by apply subscript_Some.
  reflexivity.
Qed.

(** The success path of the handler: once the form is read and the
    encoders, the scaler and the estimator have accepted the row, the four
    first outputs are rounded and handed to the template; the estimator
    has been called once and no file has changed. *)
Lemma index_post_renders (request : Request) (w : World)
  mi ei predict encoders scaler num_cols inputs X1 X2 y0 y1 y2 y3 ys rest :
  method request = POST ->
  artifacts_ready w mi ei ->
  mi !! "model" = Some (Estimator predict) ->
  ei !! "encoders" = Some encoders ->
  ei !! "scaler" = Some scaler ->
  ei !! "num_cols" = Some num_cols ->
  read_form request = Returns inputs ->
  encode encoders (X_input inputs) = Returns X1 ->
  scale_columns scaler num_cols X1 = Returns X2 ->
  predict X2 = Returns ((y0 :: y1 :: y2 :: y3 :: ys) :: rest) ->
  exists w',
    index request w =
      Ok (Rendered "index.html" (Some (results_of y0 y1 y2 y3))) w' /\
    fs w' = fs w /\
    predictions (trace w') = S (predictions (trace w)).
Proof.
  intros Hpost Hready Hm He Hs Hn Hform Henc Hscale Hpred.
  destruct (index_post_ready request w _ _ _ _ _ _ Hpost Hready Hm He Hs Hn)
    as (w1 & Hfs & Hp & ->).
  rewrite (bind_lift_Returns _ _ inputs) by done.
  rewrite (bind_lift_Returns _ _ X1) by done.
  rewrite (bind_lift_Returns _ _ X2) by done.
  unfold bind at 1, predict_first. unfold bind at 1, log at 1.
  unfold bind at 1. rewrite Hpred. cbn.
  eexists. split; [reflexivity|]. cbn. split; [done|].
  fold (predictions (trace w1 ++ [EvPredict])).
  rewrite predictions_app, Hp. cbn. lia.
Qed.

(** C1: a POST whose form fields are valid (the two numeric fields parse
    and the encoders know every label of the row), served with the two
    artifacts at hand and a scaler and an estimator that accept the row,
    is answered by the rendered template [index.html] whose results are
    exactly the four named predictions, each the estimator's output
    rounded to two decimals. *)
Theorem index_post_valid (request : Request) (w : World)
  mi ei predict encoders scaler num_cols inputs X1 X2 y0 y1 y2 y3 ys rest :
  method request = POST ->
  artifacts_ready w mi ei ->
  mi !! "model" = Some (Estimator predict) ->
  ei !! "encoders" = Some encoders ->
  ei !! "scaler" = Some scaler ->
  ei !! "num_cols" = Some num_cols ->
  read_form request = Returns inputs ->
  encode encoders (X_input inputs) = Returns X1 ->
  scale_columns scaler num_cols X1 = Returns X2 ->
  predict X2 = Returns ((y0 :: y1 :: y2 :: y3 :: ys) :: rest) ->
  exists w',
    index request w =
      Ok (Rendered "index.html"
            (Some [ ("Cementitious_Content_kgm3", py_round y0 2);
                    ("Water_Content_kgm3", py_round y1 2);
                    ("Fine_Agg_kgm3", py_round y2 2);
                    ("Coarse_Agg_kgm3", py_round y3 2) ])) w' /\
    (path request = "/" ->
     dispatch request w =
       Ok (Rendered "index.html"
             (Some [ ("Cementitious_Content_kgm3", py_round y0 2);
                     ("Water_Content_kgm3", py_round y1 2);
                     ("Fine_Agg_kgm3", py_round y2 2);
                     ("Coarse_Agg_kgm3", py_round y3 2) ])) w') /\
    fs w' = fs w /\
    predictions (trace w') = S (predictions (trace w)).
Proof.
  intros Hpost Hready Hm He Hs Hn Hform Henc Hscale Hpred.
  destruct (index_post_renders request w mi ei predict encoders scaler num_cols
              inputs X1 X2 y0 y1 y2 y3 ys rest) as (w' & Hi & Hfs & Hp); try done.
  exists w'. split_and!; try done.
  intros Hpath. unfold dispatch. by rewrite Hpath.
Qed.

Lemma py_float_unparseable (s : string) :
  float_of_string s = None -> py_float (CStr s) = Throws (ValueError s).
Proof. unfold py_float. by intros ->. Qed.

(** C10: with the artifacts at hand, a POST whose Grade_fck or
    Max_Aggregate_Size_mm value is not parseable as a float ends with the
    [ValueError] of the conversion; the handler does not catch it, renders
    nothing, and has not called the estimator. *)
Theorem index_post_unparseable (request : Request) (w : World)
  mi ei model encoders scaler num_cols s :
  method request = POST ->
  artifacts_ready w mi ei ->
  mi !! "model" = Some model ->
  ei !! "encoders" = Some encoders ->
  ei !! "scaler" = Some scaler ->
  ei !! "num_cols" = Some num_cols ->
  float_of_string s = None ->
  form_get (form request) "Grade_fck" (CInt 30) = CStr s \/
  (exists x, py_float (form_get (form request) "Grade_fck" (CInt 30)) = Returns x) /\
  form_get (form request) "Max_Aggregate_Size_mm" (CInt 20) = CStr s ->
  exists w',
    index request w = Raise (ValueError s) w' /\
    (path request = "/" -> dispatch request w = Raise (ValueError s) w') /\
    predictions (trace w') = predictions (trace w).
Proof.
  intros Hpost Hready Hm He Hs Hn Hbad Hfield.
  destruct (index_post_ready request w _ _ _ _ _ _ Hpost Hready Hm He Hs Hn)
    as (w1 & Hfs & Hp & Hi).
  assert (read_form request = Throws (ValueError s)) as Hform.
  { unfold read_form. destruct Hfield as [-> | [[x ->] ->]].
    - by rewrite py_float_unparseable.
    - cbn -[py_float]. by rewrite py_float_unparseable. }
  assert (index request w = Raise (ValueError s) w1) as Hi'.
  { rewrite Hi. by apply bind_lift_Throws. }
  exists w1. split_and!; try done.
  intros Hpath. unfold dispatch. by rewrite Hpath.
Qed.

Lemma form_get_absent (form : list (string * string)) (key : string) (dflt : cell) :
  absent form key -> form_get form key dflt = dflt.
Proof.
  unfold absent. induction form as [|[k v] form IH]; intros Habs; [done|].
  simpl. destruct (String.eqb_spec k key) as [->|Hne].
  - exfalso. apply (Habs v). by left.
  - apply IH. intros v' Hin. apply (Habs v'). by right.
Qed.

(** Reading the form fails only on a numeric field that was sent and does
    not parse. *)
Lemma read_form_returns (request : Request) (x y : float) :
  py_float (form_get (form request) "Grade_fck" (CInt 30)) = Returns x ->
  py_float (form_get (form request) "Max_Aggregate_Size_mm" (CInt 20)) = Returns y ->
  read_form request =
    Returns (mkInputs x
               (form_get (form request) "Cement_Type" (CStr "OPC43"))
               (form_get (form request) "Aggregate_Type" (CStr "Crushed"))
               y
               (form_get (form request) "Fine_Agg_Zone" (CStr "II"))).
Proof. unfold read_form. by intros -> ->. Qed.

Lemma read_form_inv (request : Request) (inputs : Inputs) :
  read_form request = Returns inputs ->
  py_float (form_get (form request) "Grade_fck" (CInt 30)) = Returns (fck inputs) /\
  cement_type inputs = form_get (form request) "Cement_Type" (CStr "OPC43") /\
  agg_type inputs = form_get (form request) "Aggregate_Type" (CStr "Crushed") /\
  py_float (form_get (form request) "Max_Aggregate_Size_mm" (CInt 20)) =
    Returns (max_size inputs) /\
  fine_zone inputs = form_get (form request) "Fine_Agg_Zone" (CStr "II").
Proof.
  unfold read_form.
  destruct (py_float (form_get (form request) "Grade_fck" (CInt 30))) as [x|]; [|done].
  destruct (py_float (form_get (form request) "Max_Aggregate_Size_mm" (CInt 20)))
    as [y|]; [|done].
  cbn. intros [= <-]. done.
Qed.

(** C2: the row the handler assembles from a POST has exactly thirteen
    columns with distinct names; the first five hold the values read from
    the form (Grade_fck and Max_Aggregate_Size_mm converted to floats,
    Cement_Type, Aggregate_Type and Fine_Agg_Zone as sent), the other
    eight are the same constants for every request. *)
Theorem X_input_shape (request : Request) (inputs : Inputs) :
  read_form request = Returns inputs ->
  length (X_input inputs) = 13%nat /\
  NoDup (map fst (X_input inputs)) /\
  py_float (form_get (form request) "Grade_fck" (CInt 30)) = Returns (fck inputs) /\
  py_float (form_get (form request) "Max_Aggregate_Size_mm" (CInt 20)) =
    Returns (max_size inputs) /\
  X_input inputs =
    [ ("Grade_fck", CFloat (fck inputs));
      ("Cement_Type", form_get (form request) "Cement_Type" (CStr "OPC43"));
      ("Max_Aggregate_Size_mm", CFloat (max_size inputs));
      ("Aggregate_Type", form_get (form request) "Aggregate_Type" (CStr "Crushed"));
      ("Fine_Agg_Zone", form_get (form request) "Fine_Agg_Zone" (CStr "II")) ] ++
    [ ("Exposure_Condition", CStr "Severe");
      ("Workability_Slump_mm", CInt 75);
      ("Admixture_Type", CStr "Superplasticizer");
      ("Admixture_Dosage_%", CFloat (float_lit 10 10));
      ("Mineral_Admixture_%", CFloat (float_lit 0 10));
      ("w_c_ratio", CFloat (float_lit 38 100));
      ("Factor_X", CFloat (float_lit 165 100));
      ("Std_Deviation_S", CFloat (float_lit 50 10)) ] /\
  (forall request' inputs',
     read_form request' = Returns inputs' ->
     drop 5 (X_input inputs') = drop 5 (X_input inputs)).
Proof.
  intros Hform. apply read_form_inv in Hform as (Hf & Hc & Ha & Hm & Hz).
  split; [reflexivity|]. split.
  { cbn [X_input map fst]. apply (bool_decide_unpack _). by vm_compute. }
  split; [done|]. split; [done|]. split; [|done].
  unfold X_input. by rewrite Hc, Ha, Hz.
Qed.

(** C9: a form field that was not sent never makes the handler fail: its
    fixed default takes its place (30, "OPC43", "Crushed", 20 and "II"),
    and reading the form succeeds as soon as the numeric fields that were
    sent parse.  So a POST with none of the five fields, an empty form in
    particular, is served from the default row, and with the artifacts at
    hand and accepting that row it produces the four predictions. *)
Theorem index_post_defaults (request : Request) (w : World)
  mi ei predict encoders scaler num_cols X1 X2 y0 y1 y2 y3 ys rest :
  method request = POST ->
  (forall key,
     In key ["Grade_fck"; "Cement_Type"; "Aggregate_Type";
             "Max_Aggregate_Size_mm"; "Fine_Agg_Zone"] ->
     absent (form request) key) ->
  artifacts_ready w mi ei ->
  mi !! "model" = Some (Estimator predict) ->
  ei !! "encoders" = Some encoders ->
  ei !! "scaler" = Some scaler ->
  ei !! "num_cols" = Some num_cols ->
  encode encoders (X_input default_inputs) = Returns X1 ->
  scale_columns scaler num_cols X1 = Returns X2 ->
  predict X2 = Returns ((y0 :: y1 :: y2 :: y3 :: ys) :: rest) ->
  read_form request = Returns default_inputs /\
  (exists w',
     index request w =
       Ok (Rendered "index.html" (Some (results_of y0 y1 y2 y3))) w') /\
  (forall request' : Request,
     (absent (form request') "Grade_fck" ->
        py_float (form_get (form request') "Grade_fck" (CInt 30)) =
          Returns (float_of_Z 30)) /\
     (absent (form request') "Cement_Type" ->
        form_get (form request') "Cement_Type" (CStr "OPC43") = CStr "OPC43") /\
     (absent (form request') "Aggregate_Type" ->
        form_get (form request') "Aggregate_Type" (CStr "Crushed") = CStr "Crushed") /\
     (absent (form request') "Max_Aggregate_Size_mm" ->
        py_float (form_get (form request') "Max_Aggregate_Size_mm" (CInt 20)) =
          Returns (float_of_Z 20)) /\
     (absent (form request') "Fine_Agg_Zone" ->
        form_get (form request') "Fine_Agg_Zone" (CStr "II") = CStr "II") /\
     ((absent (form request') "Grade_fck" \/
       exists s x, form_get (form request') "Grade_fck" (CInt 30) = CStr s /\
                   float_of_string s = Some x) ->
      (absent (form request') "Max_Aggregate_Size_mm" \/
       exists s x, form_get (form request') "Max_Aggregate_Size_mm" (CInt 20) = CStr s /\
                   float_of_string s = Some x) ->
      exists inputs, read_form request' = Returns inputs)).
Proof.
  intros Hpost Habs Hready Hm He Hs Hn Henc Hscale Hpred.
  assert (read_form request = Returns default_inputs) as Hform.
  { unfold read_form.
    rewrite !form_get_absent by (apply Habs; simpl; tauto). reflexivity. }
  split; [done|]. split.
  { destruct (index_post_renders request w mi ei predict encoders scaler num_cols
                default_inputs X1 X2 y0 y1 y2 y3 ys rest) as (w' & Hi & _); try done.
    by exists w'. }
  intros request'. split_and!.
  - intros H. by rewrite form_get_absent.
  - intros H. by rewrite form_get_absent.
  - intros H. by rewrite form_get_absent.
  - intros H. by rewrite form_get_absent.
  - intros H. by rewrite form_get_absent.
  - intros Hg Hx.
    assert (exists x, py_float (form_get (form request') "Grade_fck" (CInt 30))
                      = Returns x) as [x Hx1].
    { destruct Hg as [H | (s & x & -> & Hs')].
      - rewrite form_get_absent by done. by eexists.
      - unfold py_float. rewrite Hs'. by eexists. }
    assert (exists y, py_float (form_get (form request') "Max_Aggregate_Size_mm" (CInt 20))
                      = Returns y) as [y Hy1].
    { destruct Hx as [H | (s & y & -> & Hs')].
      - rewrite form_get_absent by done. by eexists.
      - unfold py_float. rewrite Hs'. by eexists. }
    eexists. by apply read_form_returns.
Qed.

(** ** The encoders' vocabularies *)

Lemma row_lookup_setitem_eq (X : row) (col : string) (v : cell) :
  row_lookup (setitem X col v) col = Some v.
Proof.
  induction X as [|[c old] X IH]; simpl.
  - by rewrite String.eqb_refl.
  - destruct (String.eqb_spec c col) as [->|Hne]; simpl.
    + by rewrite String.eqb_refl.
    + destruct (String.eqb_spec c col); [done|]. exact IH.
Qed.

Lemma row_lookup_setitem_ne (X : row) (col col' : string) (v : cell) :
  col <> col' -> row_lookup (setitem X col v) col' = row_lookup X col'.
Proof.
  intros Hne. induction X as [|[c old] X IH]; simpl.
  - by destruct (String.eqb_spec col col').
  - destruct (String.eqb_spec c col) as [->|Hc]; simpl.
    + by destruct (String.eqb_spec col col').
    + by rewrite IH.
Qed.

(** The encoding step succeeds exactly when every encoded column is in
    the row and its label is one the encoder knows. *)
Lemma encode_columns_vocabulary (items : list (string * (string -> option Z))) :
  NoDup (map fst items) ->
  forall X : row,
    (exists X1, encode_columns items X = Returns X1) <->
    (forall col le, In (col, le) items ->
       exists v code, row_lookup X col = Some v /\ le (py_str v) = Some code).
Proof.
  induction items as [|[col le] items IH]; intros Hnd X.
  { simpl. split; [intros _ ? ? []|eauto]. }
  apply NoDup_cons in Hnd as [Hnotin Hnd]. cbn [map fst] in Hnotin.
  assert (forall c l, In (c, l) items -> col <> c) as Hfresh.
  { intros c l Hin ->. apply Hnotin. apply list_elem_of_In.
    apply (in_map fst) in Hin. exact Hin. }
  cbn [encode_columns]. unfold getitem.
  destruct (row_lookup X col) as [v|] eqn:Hv; cbn.
  2:{ split; [by intros [? ?]|]. intros H.
      destruct (H col le) as (? & ? & ? & ?); [by left|congruence]. }
  destruct (le (py_str v)) as [code|] eqn:Hcode.
  2:{ split; [by intros [? ?]|]. intros H.
      destruct (H col le) as (? & ? & ? & ?); [by left|]. congruence. }
  rewrite (IH Hnd). split.
  - intros H c l [[= <- <-]|Hin]; [eauto|].
    destruct (H c l Hin) as (v' & code' & Hl & Hc).
    rewrite row_lookup_setitem_ne in Hl by eauto. eauto.
  - intros H c l Hin. destruct (H c l) as (v' & code' & Hl & Hc); [by right|].
    exists v', code'. rewrite row_lookup_setitem_ne by eauto. done.
Qed.

(** ** The cache across requests *)

Lemma bind_Ok {A B} (c : M A) (k : A -> M B) (w w' : World) (a : A) :
  c w = Ok a w' -> (x <- c ;; k x) w = k a w'.
Proof. unfold bind. by intros ->. Qed.








End Properties.

(** * Examples in the reference environment *)

(** A complete, valid submission. *)
Lemma index_post_valid_witness :
  exists w',
    @index Demo.env
      (Demo.post [ ("Grade_fck", "40"); ("Cement_Type", "PPC");
                   ("Aggregate_Type", "Rounded"); ("Max_Aggregate_Size_mm", "10");
                   ("Fine_Agg_Zone", "III") ])
      Demo.installed =
      Ok (Rendered "index.html"
            (Some [ ("Cementitious_Content_kgm3", float_lit 41776 100);
                    ("Water_Content_kgm3", float_lit 186 1);
                    ("Fine_Agg_kgm3", float_lit 70125 100);
                    ("Coarse_Agg_kgm3", float_lit 110488 100) ])) w' /\
    fs w' = fs Demo.installed /\
    predictions (trace w') = 1%nat.
Proof.
  edestruct (@index_post_valid Demo.env
               (Demo.post [ ("Grade_fck", "40"); ("Cement_Type", "PPC");
                            ("Aggregate_Type", "Rounded");
                            ("Max_Aggregate_Size_mm", "10");
                            ("Fine_Agg_Zone", "III") ])
               Demo.installed Demo.model_info Demo.enc_info Demo.predict
               (EncoderDict Demo.encoders) (Scaler Demo.scaler_transform)
               (ColumnList Demo.num_cols))
    as (w' & Hi & _ & Hfs & Hp).
  - reflexivity.
  - right. split; [by left|]. split; reflexivity.
  - reflexivity.
  - reflexivity.
  - reflexivity.
  - reflexivity.
  - vm_compute. reflexivity.
  - vm_compute. reflexivity.
  - vm_compute. reflexivity.
  - vm_compute. reflexivity.
  - exists w'. split; [|split; [exact Hfs | exact Hp]].
    rewrite Hi. vm_compute. reflexivity.
Defined.

(** The row assembled from a partial submission. *)
Lemma X_input_shape_witness :
  let request := Demo.post [ ("Grade_fck", "40"); ("Fine_Agg_Zone", "III") ] in
  let inputs :=
    mkInputs (float_of_Z 40) (CStr "OPC43") (CStr "Crushed") (float_of_Z 20) (CStr "III") in
  @read_form Demo.env request = Returns inputs /\
  length (X_input inputs) = 13%nat /\
  NoDup (map fst (X_input inputs)) /\
  row_lookup (X_input inputs) "Fine_Agg_Zone" = Some (CStr "III") /\
  row_lookup (X_input inputs) "Workability_Slump_mm" = Some (CInt 75).
Proof.
  intros request inputs.
  assert (@read_form Demo.env request = Returns inputs) as Hform
    by (vm_compute; reflexivity).
  destruct (@X_input_shape Demo.env request inputs Hform) as (Hlen & Hnd & _).
  split; [exact Hform|]. split; [exact Hlen|]. split; [exact Hnd|].
  split; reflexivity.
Defined.



(** A file that is there is not fetched again; a missing one is. *)
Lemma download_if_missing_existing_file_witness :
  (exists w',
     @download_if_missing Demo.env (@MODEL_URL Demo.env) MODEL_PATH Demo.installed = Ok tt w' /\
     fs w' = fs Demo.installed /\
     http_gets (trace w') = 0%nat) /\
  (exists w',
     @download_if_missing Demo.env (@MODEL_URL Demo.env) MODEL_PATH Demo.fresh = Ok tt w' /\
     fs w' !! MODEL_PATH = Some Demo.model_dump /\
     http_gets (trace w') = 1%nat).
Proof.
  split.
  - destruct (@download_if_missing_existing_file Demo.env
                (@MODEL_URL Demo.env) MODEL_PATH Demo.installed)
      as (w' & Hr & Hsame & _).
    exists w'. split; [exact Hr|].
    destruct Hsame as [Hfs Hg]; [by eexists|].
    split; [exact Hfs|]. rewrite Hg. reflexivity.
  - eexists. split; [vm_compute; reflexivity|]. split; reflexivity.
Defined.

(** C5, as stated, fails: when the write to the opened file fails, the
    failure is caught and logged and the call returns, but the artifact file
    is not absent afterwards: an empty file is left at the path, and module
    initialisation ends with both files present and empty. *)
Lemma download_write_failure_leaves_file :
  let r := @download_if_missing Demo.disk_full
             (Some "https://example.org/model.joblib") MODEL_PATH Demo.fresh in
  let started := final_world (@module_init Demo.disk_full Demo.fresh) in
  fs Demo.fresh !! MODEL_PATH = None /\
  r = Ok tt (final_world r) /\
  last (trace (final_world r)) =
    Some (EvPrint (MsgFailed MODEL_PATH (OSError "write" MODEL_PATH))) /\
  fs (final_world r) !! MODEL_PATH = Some [] /\
  fs started !! MODEL_PATH = Some [] /\
  fs started !! ENC_PATH = Some [] /\
  ~ fs (final_world r) !! MODEL_PATH = None.
Proof.
  intros r started.
  split; [reflexivity|]. split; [reflexivity|]. split; [reflexivity|].
  split; [reflexivity|].
  split; [vm_compute; reflexivity|]. split; [vm_compute; reflexivity|].
  assert (fs (final_world r) !! MODEL_PATH = Some []) as -> by reflexivity.
  discriminate.
Qed.

(** With the network down both failures are logged, initialisation runs to
    its end and no file appears. *)
Lemma download_if_missing_never_raises_witness :
  (exists w',
     @download_if_missing Demo.offline (@MODEL_URL Demo.offline) MODEL_PATH Demo.fresh = Ok tt w') /\
  (exists w',
     @module_init Demo.offline Demo.fresh = Ok tt w' /\ fs w' = ∅) /\
  @download_if_missing Demo.offline
     (Some "https://example.org/model.joblib") MODEL_PATH Demo.fresh =
    Ok tt (with_events
             (requested Demo.fresh MODEL_PATH "https://example.org/model.joblib")
             [EvPrint (MsgFailed MODEL_PATH
                         (ConnectionError "https://example.org/model.joblib"))]).
Proof.
  destruct (@download_if_missing_never_raises Demo.offline
              (Some "https://example.org/model.joblib") MODEL_PATH Demo.fresh)
    as (Hret & _ & Hfail).
  split; [exact Hret|]. split.
  - eexists. split; [vm_compute; reflexivity | reflexivity].
  - destruct (Hfail "https://example.org/model.joblib") as [Hnr _];
      [reflexivity | discriminate | reflexivity |].
    apply Hnr. reflexivity.
Defined.

(** A first POST with the encoder file missing. *)
Lemma index_post_missing_artifact_witness :
  exists w',
    @ensure_model_loaded Demo.env Demo.model_only =
      Raise (FileNotFoundError ENC_PATH) w' /\
    @index Demo.env (Demo.post []) Demo.model_only =
      Raise (FileNotFoundError ENC_PATH) w' /\
    @dispatch Demo.env (Demo.post []) Demo.model_only =
      Raise (FileNotFoundError ENC_PATH) w'.
Proof.
  destruct (@index_post_missing_artifact Demo.env (Demo.post []) Demo.model_only)
    as (e & w' & Hr & Hi & Hd & _).
  - reflexivity.
  - by left.
  - right. reflexivity.
  - assert (e = FileNotFoundError ENC_PATH) as ->.
    { assert (@ensure_model_loaded Demo.env Demo.model_only =
                Raise (FileNotFoundError ENC_PATH)
                  (final_world (@ensure_model_loaded Demo.env Demo.model_only)))
        as Hc by reflexivity.
      rewrite Hr in Hc. by injection Hc. }
    exists w'. split; [exact Hr|]. split; [exact Hi|]. apply Hd. reflexivity.
Defined.

(** Initialisation in an empty directory: one request per artifact. *)
Lemma download_if_missing_single_request_witness :
  exists w',
    @module_init Demo.env Demo.fresh = Ok tt w' /\
    http_gets (trace w') = 2%nat /\
    (exists w1 (evs : list event),
       @download_if_missing Demo.offline (@MODEL_URL Demo.offline) MODEL_PATH Demo.fresh = Ok tt w1 /\
       trace w1 = trace Demo.fresh ++ evs /\
       (http_gets evs <= 1)%nat).
Proof.
  eexists. split; [vm_compute; reflexivity|]. split; [reflexivity|].
  destruct (@download_if_missing_single_request Demo.offline
              (@MODEL_URL Demo.offline) MODEL_PATH Demo.fresh)
    as ((w1 & evs & Hr & Ht & Hg & _) & _).
  exists w1, evs. split; [exact Hr|]. split; [exact Ht | exact Hg].
Defined.

(** An empty form is served from the defaults. *)
Lemma index_post_defaults_witness :
  @read_form Demo.env (Demo.post []) = Returns default_inputs /\
  exists w',
    @index Demo.env (Demo.post []) Demo.installed =
      Ok (Rendered "index.html"
            (Some [ ("Cementitious_Content_kgm3", float_lit 38446 100);
                    ("Water_Content_kgm3", float_lit 186 1);
                    ("Fine_Agg_kgm3", float_lit 70125 100);
                    ("Coarse_Agg_kgm3", float_lit 110488 100) ])) w'.
Proof.
  edestruct (@index_post_defaults Demo.env (Demo.post []) Demo.installed
               Demo.model_info Demo.enc_info Demo.predict
               (EncoderDict Demo.encoders) (Scaler Demo.scaler_transform)
               (ColumnList Demo.num_cols))
    as (Hform & (w' & Hi) & _).
  - reflexivity.
  - intros key _ v [].
  - right. split; [by left|]. split; reflexivity.
  - reflexivity.
  - reflexivity.
  - reflexivity.
  - reflexivity.
  - vm_compute. reflexivity.
  - vm_compute. reflexivity.
  - vm_compute. reflexivity.
  - split; [exact Hform|]. exists w'. rewrite Hi. vm_compute. reflexivity.
Defined.

(** A grade written the way engineers write it, "M30", is not a float. *)
Lemma index_post_unparseable_witness :
  exists w',
    @index Demo.env (Demo.post [ ("Grade_fck", "M30") ]) Demo.installed =
      Raise (ValueError "M30") w' /\
    predictions (trace w') = 0%nat.
Proof.
  destruct (@index_post_unparseable Demo.env (Demo.post [ ("Grade_fck", "M30") ])
              Demo.installed Demo.model_info Demo.enc_info
              (Estimator Demo.predict) (EncoderDict Demo.encoders)
              (Scaler Demo.scaler_transform) (ColumnList Demo.num_cols) "M30")
    as (w' & Hi & _ & Hp).
  - reflexivity.
  - right. split; [by left|]. split; reflexivity.
  - reflexivity.
  - reflexivity.
  - reflexivity.
  - reflexivity.
  - reflexivity.
  - left. reflexivity.
  - exists w'. split; [exact Hi | exact Hp].
Defined.

(** A whole run: start in an empty directory, fetch both artifacts, serve
    two submissions.  Two requests go out, each file is deserialised once,
    and the estimator is called once per submission. *)
Example fresh_start_two_posts :
  let w0 := final_world (@module_init Demo.env Demo.fresh) in
  let w1 := final_world (@dispatch Demo.env (Demo.post [("Grade_fck", "25")]) w0) in
  let w2 := final_world (@dispatch Demo.env (Demo.post []) w1) in
  fs w0 !! MODEL_PATH = Some Demo.model_dump /\
  fs w0 !! ENC_PATH = Some Demo.enc_dump /\
  http_gets (trace w2) = 2%nat /\
  joblib_loads MODEL_PATH (trace w2) = 1%nat /\
  joblib_loads ENC_PATH (trace w2) = 1%nat /\
  predictions (trace w2) = 2%nat.
Proof. vm_compute. repeat split; reflexivity. Qed.

(** The failure of a download is deferred to the first submission. *)
Example offline_start_then_post :
  let w0 := final_world (@module_init Demo.offline Demo.fresh) in
  @module_init Demo.offline Demo.fresh = Ok tt w0 /\
  fs w0 = ∅ /\
  @dispatch Demo.offline (Demo.post []) w0 =
    Raise (FileNotFoundError MODEL_PATH)
      (final_world (@dispatch Demo.offline (Demo.post []) w0)).
Proof. vm_compute. repeat split; reflexivity. Qed.

(** * Further properties of the program *)

Section MoreProperties.
Context `{E : Env}.

(** ** The download, continued *)

Lemma download_effect (url : option string) (path : string) (w : World) :
  exists w' (evs : list event),
    download_if_missing url path w = Ok tt w' /\
    model_bundle w' = model_bundle w /\
    enc_data w' = enc_data w /\
    trace w' = trace w ++ evs /\
    (forall p, p <> path -> fs w' !! p = fs w !! p) /\
    (forall p data, fs w !! p = Some data -> fs w' !! p = Some data).
Proof.
  destruct (download_runs url path w)
    as (w' & evs & Hr & Ht & Hm & He & _ & [Hfs | (Hp & data & Hfs)]).
  - exists w', evs. rewrite Hfs. by split_and!.
  - exists w', evs. split_and!; try done.
    + intros p Hne. rewrite Hfs. by apply lookup_insert_ne.
    + intros p d Hd. rewrite Hfs.
      destruct (decide (path = p)) as [->|Hne]; [congruence|].
      by rewrite lookup_insert_ne.
Qed.

(** X1: whatever happens, a call of [download_if_missing] leaves the two
    cache variables alone, only appends to the trace, never touches a file
    other than the one at [path], and never changes a file that was already
    there. *)
Theorem download_if_missing_frame (url : option string) (path : string) (w : World) :
  exists w' (evs : list event),
    download_if_missing url path w = Ok tt w' /\
    model_bundle w' = model_bundle w /\
    enc_data w' = enc_data w /\
    trace w' = trace w ++ evs /\
    (forall p, p <> path -> fs w' !! p = fs w !! p) /\
    (forall p data, fs w !! p = Some data -> fs w' !! p = Some data).
Proof. apply download_effect. Qed.

(** X2: when the file is missing, the server answers with a status that is
    not an error (below 400 or from 600 on) and the file can be opened and
    written, the file ends up holding exactly the body of the response,
    whatever the status and even when the body is empty; a following call
    for the same path, with any URL, prints one line and does nothing
    else. *)
Theorem download_if_missing_saves_then_skips
  (u path : string) (w : World) st body :
  u <> "" ->
  fs w !! path = None ->
  requests_get (announced w path u) u = Response st body ->
  ~ 400 <= st < 600 ->
  open_wb (requested w path u) path = true ->
  file_write (created w path u) path body = None ->
  exists w1,
    download_if_missing (Some u) path w = Ok tt w1 /\
    fs w1 = <[path := body]> (fs w) /\
    last (trace w1) = Some (EvPrint (MsgSaved path)) /\
    http_gets (trace w1) = S (http_gets (trace w)) /\
    forall url', exists m,
      download_if_missing url' path w1 = Ok tt (with_events w1 [EvPrint m]).
Proof.
  intros Hu Hp Hr Hst Ho Hw.
  eexists. split; [by eapply download_saved|]. cbn [fs trace].
  split_and!.
  - done.
  - by rewrite last_snoc.
  - unfold requested, announced, with_events. cbn [trace].
    rewrite !http_gets_app. cbn. lia.
  - intros url'. apply download_skipped. left. cbn [fs].
    rewrite lookup_insert_eq. eauto.
Qed.

(** ** Module initialisation *)

(** X3: module initialisation always completes, ends with both cache
    variables empty, can create no file other than the two artifacts, and
    changes no file that was already there. *)
Theorem module_init_frame (w : World) :
  exists w',
    module_init w = Ok tt w' /\
    model_bundle w' = None /\
    enc_data w' = None /\
    well_formed_cache w' /\
    (forall p, p <> MODEL_PATH -> p <> ENC_PATH -> fs w' !! p = fs w !! p) /\
    (forall p data, fs w !! p = Some data -> fs w' !! p = Some data).
Proof.
  destruct (download_effect MODEL_URL MODEL_PATH w)
    as (w1 & evs1 & H1 & _ & _ & _ & F1 & K1).
  destruct (download_effect ENC_URL ENC_PATH w1)
    as (w2 & evs2 & H2 & _ & _ & _ & F2 & K2).
  exists (mkWorld (fs w2) None None (trace w2)).
  split; [unfold module_init, bind; by rewrite H1, H2|]. cbn [fs model_bundle enc_data].
  split_and!; try done.
  - by intros [? ?].
  - intros p Hm He. by rewrite F2, F1.
  - intros p data Hd. by apply K2, K1.
Qed.

(** X4: when each artifact is already on disk or has no URL configured (the
    environment variable is unset or empty), module initialisation makes no
    HTTP request and leaves the file system exactly as it was. *)
Theorem module_init_nothing_to_fetch (w : World) :
  is_Some (fs w !! MODEL_PATH) \/ truthy MODEL_URL = false ->
  is_Some (fs w !! ENC_PATH) \/ truthy ENC_URL = false ->
  exists w' m1 m2,
    module_init w = Ok tt w' /\
    fs w' = fs w /\
    trace w' = trace w ++ [EvPrint m1; EvPrint m2] /\
    http_gets (trace w') = http_gets (trace w).
Proof.
  intros Hm He.
  destruct (download_skipped MODEL_URL MODEL_PATH w Hm) as [m1 H1].
  destruct (download_skipped ENC_URL ENC_PATH (with_events w [EvPrint m1]))
    as [m2 H2]; [done|].
  eexists _, m1, m2. split; [unfold module_init, bind; by rewrite H1, H2|].
  cbn [fs trace with_events]. split_and!; try done.
  - by rewrite <- app_assoc.
  - rewrite <- app_assoc, http_gets_app. cbn. lia.
Qed.

(** ** The lazy cache, continued *)

Lemma load_error_fs (w w' : World) (p : string) :
  fs w' = fs w -> load_error w' p = load_error w p.
Proof. unfold load_error. by intros ->. Qed.

(** A failed call has an incomplete cache behind it, and leaves it
    incomplete when the cache was well formed. *)
Lemma ensure_model_loaded_raise_inv (w w1 : World) (e : exn) :
  ensure_model_loaded w = Raise e w1 ->
  (model_bundle w = None \/ enc_data w = None) /\
  fs w1 = fs w /\
  (fs w !! MODEL_PATH ≫= unpickle = None /\
   e = load_error w MODEL_PATH /\
   model_bundle w1 = model_bundle w /\ enc_data w1 = enc_data w \/
   is_Some (fs w !! MODEL_PATH ≫= unpickle) /\
   fs w !! ENC_PATH ≫= unpickle = None /\
   e = load_error w ENC_PATH /\
   is_Some (model_bundle w1) /\ enc_data w1 = enc_data w).
Proof.
  intros Hr.
  assert (model_bundle w = None \/ enc_data w = None) as Hc.
  { destruct (model_bundle w) as [m|] eqn:Hm; [|by left].
    destruct (enc_data w) as [e'|] eqn:He; [|by right].
    by rewrite (ensure_model_loaded_cached w m e') in Hr. }
  split; [done|].
  rewrite ensure_model_loaded_incomplete in Hr by done.
  destruct (fs w !! MODEL_PATH ≫= unpickle) as [m|].
  - destruct (fs w !! ENC_PATH ≫= unpickle) as [e'|]; [done|].
    injection Hr as <- <-. cbn. split; [done|]. right. split_and!; eauto.
  - injection Hr as <- <-. cbn. split; [done|]. left. by split_and!.
Qed.

Lemma ensure_model_loaded_effect (w : World) :
  fs (final_world (ensure_model_loaded w)) = fs w /\
  http_gets (trace (final_world (ensure_model_loaded w))) = http_gets (trace w) /\
  predictions (trace (final_world (ensure_model_loaded w))) = predictions (trace w) /\
  (well_formed_cache w -> well_formed_cache (final_world (ensure_model_loaded w))).
Proof.
  destruct (model_bundle w) as [m|] eqn:Hm; [destruct (enc_data w) as [e|] eqn:He|].
  { by rewrite (ensure_model_loaded_cached w m e). }
  all: rewrite ensure_model_loaded_incomplete by eauto.
  all: destruct (fs w !! MODEL_PATH ≫= unpickle) as [m'|];
    [destruct (fs w !! ENC_PATH ≫= unpickle) as [e'|]|].
  all: unfold well_formed_cache; cbn [final_world fs trace with_events model_bundle enc_data].
  all: rewrite ?http_gets_app, ?predictions_app; cbn.
  all: rewrite ?Hm, ?He.
  all: split_and!; first [done | lia | eauto].
Qed.


(** X6: a failure of [ensure_model_loaded] is not remembered but it
    repeats: as long as the files stay as they are, every later call raises
    the same exception again. *)
Theorem ensure_model_loaded_fails_again (w w1 : World) (e : exn) :
  well_formed_cache w ->
  ensure_model_loaded w = Raise e w1 ->
  forall w2,
    fs w2 = fs w ->
    model_bundle w2 = model_bundle w1 ->
    enc_data w2 = enc_data w1 ->
    exists w3, ensure_model_loaded w2 = Raise e w3.
Proof.
  intros Hwf Hr w2 Hfs Hm2 He2.
  apply ensure_model_loaded_raise_inv in Hr
    as (Hc & _ & [(Hm & -> & Hm1 & He1) | (Hm & He & -> & Hm1 & He1)]).
  - rewrite ensure_model_loaded_incomplete by (rewrite Hm2, He2, Hm1, He1; done).
    rewrite Hfs, Hm. rewrite (load_error_fs w w2) by done. eauto.
  - assert (enc_data w = None) as Hnone.
    { destruct Hc as [Hc|Hc]; [|done].
      destruct (enc_data w) as [e0|] eqn:He0; [|done].
      destruct Hwf as [? ?]; [by rewrite He0|congruence]. }
    rewrite ensure_model_loaded_incomplete by (right; congruence).
    rewrite Hfs. destruct Hm as [m ->]. rewrite He.
    rewrite (load_error_fs w w2) by done. eauto.
Qed.

(** X7: a failure of [ensure_model_loaded] is not final: once both files
    are present and valid, the next call deserialises them, caches them and
    returns them, replacing whatever the failed call had left in the
    cache. *)
Theorem ensure_model_loaded_recovers (w w1 w2 : World) (e : exn) mi ei :
  well_formed_cache w ->
  ensure_model_loaded w = Raise e w1 ->
  model_bundle w2 = model_bundle w1 ->
  enc_data w2 = enc_data w1 ->
  fs w2 !! MODEL_PATH ≫= unpickle = Some mi ->
  fs w2 !! ENC_PATH ≫= unpickle = Some ei ->
  ensure_model_loaded w2 =
    Ok (Some mi, Some ei)
       (mkWorld (fs w2) (Some mi) (Some ei)
          (trace w2 ++ [EvPrint MsgLoading; EvJoblibLoad MODEL_PATH;
                        EvJoblibLoad ENC_PATH; EvPrint MsgLoaded])).
Proof.
  intros Hwf Hr Hm2 He2 Fm Fe.
  apply ensure_model_loaded_loads; try done.
  apply ensure_model_loaded_raise_inv in Hr
    as (Hc & _ & [(_ & _ & Hm1 & He1) | (_ & _ & _ & Hm1 & He1)]).
  - rewrite Hm2, He2, Hm1, He1. done.
  - right. rewrite He2, He1.
    destruct Hc as [Hc|Hc]; [|done].
    destruct (enc_data w) as [e0|] eqn:He0; [|done].
    destruct Hwf as [? ?]; [by rewrite He0|congruence].
Qed.

(** ** The URL map *)

Lemma stays_local_ret {A} (a : A) : stays_local 0 (ret a).
Proof. intros w. cbn. split_and!; [done..|lia|lia]. Qed.

Lemma stays_local_raise {A} (e : exn) : stays_local 0 (@raise A e).
Proof. intros w. cbn. split_and!; [done..|lia|lia]. Qed.

Lemma stays_local_lift {A} (o : outcome A) : stays_local 0 (lift o).
Proof. destruct o; [apply stays_local_ret | apply stays_local_raise]. Qed.

Lemma stays_local_bind {A B} (n1 n2 : nat) (m : M A) (k : A -> M B) :
  stays_local n1 m -> (forall a, stays_local n2 (k a)) ->
  stays_local (n1 + n2) (x <- m ;; k x).
Proof.
  intros Hm Hk w. specialize (Hm w). unfold bind.
  destruct (m w) as [a w1|e w1]; cbn [final_world] in Hm |- *.
  - destruct Hm as (H1 & H2 & H3). destruct (Hk a w1) as (K1 & K2 & K3).
    split_and!; [congruence | congruence | lia | lia].
  - destruct Hm as (H1 & H2 & H3). split_and!; [done | done | lia | lia].
Qed.

Lemma stays_local_weaken {A} (n n' : nat) (m : M A) :
  stays_local n m -> (n <= n')%nat -> stays_local n' m.
Proof.
  intros Hm Hle w. destruct (Hm w) as (H1 & H2 & H3).
  split_and!; [done | done | lia | lia].
Qed.

Lemma stays_local_predict_first (model : pyobj) (X : row) :
  stays_local 1 (predict_first model X).
Proof.
  destruct model;
    try (eapply stays_local_weaken; [apply stays_local_raise | lia]).
  unfold predict_first. apply (stays_local_bind 1 0).
  - intros w. unfold log. cbn [final_world fs trace].
    rewrite http_gets_app, predictions_app. cbn. split_and!; [done | lia..].
  - intros _. apply (stays_local_bind 0 0); [apply stays_local_lift|].
    intros [|y0 y]; [apply stays_local_raise | apply stays_local_ret].
Qed.

Lemma stays_local_ensure_model_loaded : stays_local 0 ensure_model_loaded.
Proof.
  intros w. destruct (ensure_model_loaded_effect w) as (H1 & H2 & H3 & _).
  split_and!; [done | done | lia | lia].
Qed.

Lemma stays_local_index (request : Request) : stays_local 1 (index request).
Proof.
  unfold index. destruct (method request).
  { eapply stays_local_weaken; [apply stays_local_ret | lia]. }
  eapply stays_local_weaken.
  - eapply stays_local_bind; [apply stays_local_ensure_model_loaded | intros ?].
    repeat (eapply stays_local_bind;
            [first [apply stays_local_lift | apply stays_local_predict_first]
            | intros ?]).
    apply stays_local_ret.
  - cbn. lia.
Qed.

(** X8: serving a request, whatever it is and however it ends, never
    changes a file and never makes an HTTP request, and it calls the
    estimator at most once. *)
Theorem dispatch_stays_local (request : Request) (w : World) :
  fs (final_world (dispatch request w)) = fs w /\
  http_gets (trace (final_world (dispatch request w))) = http_gets (trace w) /\
  (predictions (trace w) <= predictions (trace (final_world (dispatch request w))) <=
     S (predictions (trace w)))%nat.
Proof.
  assert (stays_local 1 (dispatch request)) as H.
  { unfold dispatch. destruct (String.eqb (path request) "/").
    - apply stays_local_index.
    - eapply stays_local_weaken; [|apply Nat.le_0_1].
      destruct (String.eqb (path request) "/health"); [|apply stays_local_ret].
      destruct (method request); [|apply stays_local_ret].
      apply (stays_local_bind 0 0); [apply stays_local_ret|].
      intros ?. apply stays_local_ret. }
  destruct (H w) as (H1 & H2 & H3). split_and!; [done | done | lia | lia].
Qed.


(** X10: only a form submission can fail or change anything: every request
    other than a POST of the root route is answered without an exception
    and leaves the world, trace included, exactly as it was; in particular
    a GET of the root route renders the page without loading the
    artifacts. *)
Theorem dispatch_other_requests_pure (request : Request) (w : World) :
  ~ (method request = POST /\ path request = "/") ->
  (exists r, dispatch request w = Ok r w) /\
  (method request = GET -> path request = "/" ->
   dispatch request w = Ok (Rendered "index.html" None) w).
Proof.
  intros Hnot. unfold dispatch.
  destruct (String.eqb_spec (path request) "/") as [Hp|Hp].
  - destruct (method request) eqn:Hm; [|by destruct Hnot].
    unfold index. rewrite Hm. split; [by eexists|done].
  - split; [|done].
    destruct (String.eqb (path request) "/health"); [|by eexists].
    destruct (method request); by eexists.
Qed.

(** ** The root route: what can go wrong *)

(** X11: when a bundle lacks one of the keys the handler reads ("model" in
    the model bundle; "encoders", "scaler", "num_cols" in the encoder
    bundle), every POST, whatever its form, ends with the [KeyError] of the
    first missing key, before the form is read and without calling the
    estimator. *)
Theorem index_post_missing_key (request : Request) (w : World) mi ei :
  method request = POST ->
  artifacts_ready w mi ei ->
  mi !! "model" = None \/ ei !! "encoders" = None \/
  ei !! "scaler" = None \/ ei !! "num_cols" = None ->
  exists key w',
    index request w = Raise (KeyError key) w' /\
    predictions (trace w') = predictions (trace w) /\
    key =
      (if mi !! "model" is None then "model"
       else if ei !! "encoders" is None then "encoders"
       else if ei !! "scaler" is None then "scaler"
       else "num_cols").
Proof.
  intros Hpost Hready Hmiss.
  destruct (ensure_model_loaded_ready w mi ei Hready) as (w1 & Hr & _ & Hp).
  rewrite index_post by done. rewrite (bind_Ok _ _ _ _ _ Hr). cbn [fst snd].
  unfold subscript.
  destruct (mi !! "model") as [model|]; [|by eexists _, _].
  rewrite (bind_lift_Returns _ _ model) by done.
  destruct (ei !! "encoders") as [encoders|]; [|by eexists _, _].
  rewrite (bind_lift_Returns _ _ encoders) by done.
  destruct (ei !! "scaler") as [scaler|]; [|by eexists _, _].
  rewrite (bind_lift_Returns _ _ scaler) by done.
  destruct (ei !! "num_cols") as [num_cols|]; [|by eexists _, _].
  by destruct Hmiss as [?|[?|[?|?]]].
Qed.

(** X12: when the estimator returns no row, or a first row with fewer than
    four values, the handler raises [IndexError] at the first index it
    cannot read (0 for a missing row, the length of a short row), after the
    one call of the estimator and without rendering anything. *)
Theorem index_post_short_prediction (request : Request) (w : World)
  mi ei predict encoders scaler num_cols inputs X1 X2 ys :
  method request = POST ->
  artifacts_ready w mi ei ->
  mi !! "model" = Some (Estimator predict) ->
  ei !! "encoders" = Some encoders ->
  ei !! "scaler" = Some scaler ->
  ei !! "num_cols" = Some num_cols ->
  read_form request = Returns inputs ->
  encode encoders (X_input inputs) = Returns X1 ->
  scale_columns scaler num_cols X1 = Returns X2 ->
  predict X2 = Returns ys ->
  (forall y, head ys = Some y -> (length y < 4)%nat) ->
  exists w',
    index request w =
      Raise (IndexError (match ys with [] => 0 | y :: _ => length y end)) w' /\
    predictions (trace w') = S (predictions (trace w)).
Proof.
  intros Hpost Hready Hm He Hs Hn Hform Henc Hscale Hpred Hshort.
  destruct (index_post_ready request w _ _ _ _ _ _ Hpost Hready Hm He Hs Hn)
    as (w1 & Hfs & Hp & ->).
  rewrite (bind_lift_Returns _ _ inputs) by done.
  rewrite (bind_lift_Returns _ _ X1) by done.
  rewrite (bind_lift_Returns _ _ X2) by done.
  unfold bind at 1, predict_first. unfold bind at 1, log at 1.
  unfold bind at 1. rewrite Hpred. cbn [lift ret].
  assert (predictions (trace w1 ++ [EvPredict]) = S (predictions (trace w))) as Hcount
    by (rewrite predictions_app, Hp; cbn; lia).
  destruct ys as [|y rest]; [by eexists|].
  specialize (Hshort y eq_refl).
  destruct y as [|y0 [|y1 [|y2 [|y3 y]]]]; cbn in Hshort; try lia;
    by eexists.
Qed.

Lemma encode_columns_throws (items : list (string * (string -> option Z))) :
  forall (X : row) (e : exn),
    encode_columns items X = Throws e ->
    (exists col, e = KeyError col /\ In col (map fst items)) \/
    (exists label, e = ValueError label).
Proof.
  induction items as [|[col le] items IH]; intros X e; [done|].
  cbn [encode_columns]. unfold getitem.
  destruct (row_lookup X col) as [v|]; cbn.
  - destruct (le (py_str v)) as [code|].
    + intros H. destruct (IH _ _ H) as [(c & -> & Hin)|?]; [left|by right].
      exists c. split; [done|by right].
    + intros [= <-]. right. eauto.
  - intros [= <-]. left. exists col. split; [done|by left].
Qed.

(** X13: when some encoder meets a label it does not know (or is keyed by a
    column the row does not have), the POST ends with the encoder's
    [ValueError] (or the frame's [KeyError]) and the estimator is never
    called. *)
Theorem index_post_unknown_label (request : Request) (w : World)
  mi ei model items scaler num_cols inputs col le :
  method request = POST ->
  artifacts_ready w mi ei ->
  mi !! "model" = Some model ->
  ei !! "encoders" = Some (EncoderDict items) ->
  ei !! "scaler" = Some scaler ->
  ei !! "num_cols" = Some num_cols ->
  read_form request = Returns inputs ->
  NoDup (map fst items) ->
  In (col, le) items ->
  ~ (exists v code,
       row_lookup (X_input inputs) col = Some v /\ le (py_str v) = Some code) ->
  exists e w',
    index request w = Raise e w' /\
    predictions (trace w') = predictions (trace w) /\
    ((exists c, e = KeyError c /\ In c (map fst items)) \/
     (exists label, e = ValueError label)).
Proof.
  intros Hpost Hready Hm He Hs Hn Hform Hnd Hin Hbad.
  destruct (index_post_ready request w _ _ _ _ _ _ Hpost Hready Hm He Hs Hn)
    as (w1 & Hfs & Hp & ->).
  rewrite (bind_lift_Returns _ _ inputs) by done.
  destruct (encode_columns items (X_input inputs)) as [X1|e] eqn:Henc.
  - exfalso. apply Hbad.
    apply (proj1 (encode_columns_vocabulary items Hnd (X_input inputs)));
      [by exists X1 | done].
  - exists e, w1. split; [by apply bind_lift_Throws|]. split; [done|].
    by eapply encode_columns_throws.
Qed.

(** ** The row on its way to the estimator *)

Lemma setitem_columns (X : row) (col : string) (v : cell) :
  is_Some (row_lookup X col) -> map fst (setitem X col v) = map fst X.
Proof.
  induction X as [|[c old] X IH]; simpl; [by intros [? ?]|].
  destruct (String.eqb c col); [done|]. intros H. cbn. by rewrite IH.
Qed.

Lemma row_lookup_setitem_is_Some (X : row) (col col' : string) (v : cell) :
  is_Some (row_lookup X col') -> is_Some (row_lookup (setitem X col v) col').
Proof.
  intros H. destruct (decide (col = col')) as [->|Hne].
  - rewrite row_lookup_setitem_eq. eauto.
  - by rewrite row_lookup_setitem_ne.
Qed.

Lemma encode_columns_columns (items : list (string * (string -> option Z))) :
  forall X X1 : row,
    encode_columns items X = Returns X1 -> map fst X1 = map fst X.
Proof.
  induction items as [|[col le] items IH]; intros X X1; [by intros [= ->]|].
  cbn [encode_columns]. unfold getitem.
  destruct (row_lookup X col) as [v|] eqn:Hv; cbn; [|done].
  destruct (le (py_str v)) as [code|]; [|done].
  intros H. rewrite (IH _ _ H). apply setitem_columns. rewrite Hv. eauto.
Qed.

Lemma select_columns_Some (X : row) (cols : list string) (cells : list cell) :
  select_columns X cols = Returns cells ->
  forall c, In c cols -> is_Some (row_lookup X c).
Proof.
  revert cells. induction cols as [|c0 cols IH]; intros cells; [by intros _ ? []|].
  cbn [select_columns]. unfold getitem.
  destruct (row_lookup X c0) as [v|] eqn:Hv; cbn; [|done].
  destruct (select_columns X cols) as [vs|]; cbn; [|done].
  intros _ c [<-|Hin]; [rewrite Hv; eauto|]. by eapply IH.
Qed.

Lemma assign_columns_columns (cols : list string) :
  forall (X X2 : row) (values : list float),
    (forall c, In c cols -> is_Some (row_lookup X c)) ->
    assign_columns X cols values = Returns X2 ->
    map fst X2 = map fst X.
Proof.
  induction cols as [|c cols IH]; intros X X2 [|v values] Hall; cbn; try done.
  - by intros [= ->].
  - intros H. rewrite (IH (setitem X c (CFloat v)) X2 values); [|
      intros c' Hin; apply row_lookup_setitem_is_Some, Hall; by right | done].
    apply setitem_columns, Hall. by left.
Qed.

(** X14: encoding and scaling never add, drop, rename or reorder a column:
    the frame handed to the estimator has the column names of the assembled
    row, in the same order, so for the handler's row the thirteen names in
    the order in which the row was written. *)
Theorem pipeline_preserves_columns
  (encoders scaler num_cols : pyobj) (X X1 X2 : row) :
  encode encoders X = Returns X1 ->
  scale_columns scaler num_cols X1 = Returns X2 ->
  map fst X2 = map fst X /\
  (forall inputs, X = X_input inputs ->
     map fst X2 =
       [ "Grade_fck"; "Cement_Type"; "Max_Aggregate_Size_mm"; "Aggregate_Type";
         "Fine_Agg_Zone"; "Exposure_Condition"; "Workability_Slump_mm";
         "Admixture_Type"; "Admixture_Dosage_%"; "Mineral_Admixture_%";
         "w_c_ratio"; "Factor_X"; "Std_Deviation_S" ]).
Proof.
  intros Henc Hscale.
  assert (map fst X2 = map fst X) as Heq.
  { transitivity (map fst X1).
    - unfold scale_columns in Hscale.
      destruct scaler as [| |transform| |]; try done.
      destruct num_cols as [| | |cols|]; try done.
      destruct (select_columns X1 cols) as [cells|] eqn:Hsel; cbn in Hscale; [|done].
      destruct (transform cells) as [scaled|]; cbn in Hscale; [|done].
      eapply assign_columns_columns; [|exact Hscale].
      by eapply select_columns_Some.
    - unfold encode in Henc. destruct encoders as [|items| | |]; try done.
      by eapply encode_columns_columns. }
  split; [done|]. intros inputs ->. by rewrite Heq.
Qed.

(** X15: the encoders change their own columns and nothing else: after a
    successful encoding (the encoders' keys being distinct, as those of a
    dictionary are) each encoded column holds the integer code of the label
    it held, and every other column holds what it held before. *)
Theorem encode_columns_lookup
  (items : list (string * (string -> option Z))) (X X1 : row) :
  NoDup (map fst items) ->
  encode_columns items X = Returns X1 ->
  (forall col le, In (col, le) items ->
     exists v code,
       row_lookup X col = Some v /\ le (py_str v) = Some code /\
       row_lookup X1 col = Some (CInt code)) /\
  (forall col, ~ In col (map fst items) -> row_lookup X1 col = row_lookup X col).
Proof.
  revert X. induction items as [|[col le] items IH]; intros X Hnd Henc.
  { injection Henc as ->. split; [intros ? ? []|done]. }
  apply NoDup_cons in Hnd as [Hnotin Hnd]. cbn [map fst] in Hnotin.
  rewrite list_elem_of_In in Hnotin.
  cbn [encode_columns] in Henc. unfold getitem in Henc.
  destruct (row_lookup X col) as [v|] eqn:Hv; cbn in Henc; [|done].
  destruct (le (py_str v)) as [code|] eqn:Hcode; [|done].
  destruct (IH _ Hnd Henc) as [Hin Hout]. split.
  - intros c l [[= <- <-]|Hcl].
    + exists v, code. split_and!; try done.
      rewrite (Hout col Hnotin). apply row_lookup_setitem_eq.
    + destruct (Hin c l Hcl) as (v' & code' & Hl & Hc & H1).
      assert (col <> c) as Hne.
      { intros ->. apply Hnotin. by apply (in_map fst) in Hcl. }
      rewrite row_lookup_setitem_ne in Hl by done. eauto 6.
  - intros c Hc. cbn [map fst] in Hc.
    rewrite Hout by (intros ?; apply Hc; by right).
    apply row_lookup_setitem_ne. intros ->. apply Hc. by left.
Qed.

(** ** The form *)

Lemma form_get_app (f1 f2 : list (string * string)) (key : string) (d : cell) :
  form_get (f1 ++ f2) key d = form_get f1 key (form_get f2 key d).
Proof.
  induction f1 as [|[k v] f1 IH]; [done|]. simpl.
  by destruct (String.eqb k key).
Qed.

Lemma form_get_present (f : list (string * string)) (key : string) (d d' : cell) :
  In key (map fst f) -> form_get f key d = form_get f key d'.
Proof.
  induction f as [|[k v] f IH]; [done|]. simpl.
  destruct (String.eqb_spec k key) as [->|Hne]; [done|].
  intros [?|Hin]; [done|]. by apply IH.
Qed.

Lemma index_read_form (r1 r2 : Request) :
  method r1 = method r2 -> read_form r1 = read_form r2 -> index r1 = index r2.
Proof. unfold index. by intros -> ->. Qed.

(** X16: a form field is ignored when its name is not one of the five the
    handler reads, or when a field of the same name comes earlier in the
    form (the first value wins): with or without it, the request gets the
    same answer and leaves the same world. *)
Theorem dispatch_ignores_field
  (request : Request) (f1 f2 : list (string * string)) (k v : string) (w : World) :
  ~ In k form_fields \/ In k (map fst f1) ->
  dispatch (with_form request (f1 ++ (k, v) :: f2)) w =
  dispatch (with_form request (f1 ++ f2)) w.
Proof.
  intros Hk.
  assert (forall key d, In key form_fields ->
            form_get (f1 ++ (k, v) :: f2) key d = form_get (f1 ++ f2) key d) as Hget.
  { intros key d Hkey. rewrite !form_get_app. cbn [form_get].
    destruct (String.eqb_spec k key) as [->|Hne]; [|done].
    destruct Hk as [Hk|Hk]; [done|]. by apply form_get_present. }
  assert (read_form (with_form request (f1 ++ (k, v) :: f2)) =
          read_form (with_form request (f1 ++ f2))) as Hread.
  { unfold read_form, with_form. cbn [form].
    rewrite !Hget by (unfold form_fields; simpl; tauto). done. }
  unfold dispatch. cbn [with_form path].
  by rewrite (index_read_form _ (with_form request (f1 ++ f2))).
Qed.

(** ** More on the scaler, the loading order and the download *)

Lemma assign_columns_lookup (cols : list string) :
  forall (X X2 : row) (values : list float),
    NoDup cols ->
    assign_columns X cols values = Returns X2 ->
    length values = length cols /\
    (forall i c x, cols !! i = Some c -> values !! i = Some x ->
       row_lookup X2 c = Some (CFloat x)) /\
    (forall c, ~ In c cols -> row_lookup X2 c = row_lookup X c).
Proof.
  induction cols as [|c cols IH]; intros X X2 [|v values] Hnd; cbn; try done.
  { intros [= ->]. split_and!; [done| by intros [|?] | done]. }
  apply NoDup_cons in Hnd as [Hnotin Hnd]. rewrite list_elem_of_In in Hnotin.
  intros H. destruct (IH _ _ _ Hnd H) as (Hlen & Hin & Hout). split_and!.
  - by rewrite Hlen.
  - intros [|i] c' x; cbn.
    + intros [= <-] [= <-]. rewrite (Hout c Hnotin). apply row_lookup_setitem_eq.
    + apply Hin.
  - intros c' Hc'. rewrite Hout by (intros ?; apply Hc'; by right).
    apply row_lookup_setitem_ne. intros ->. apply Hc'. by left.
Qed.

(** X17: the scaler sees the numeric columns in the order of [num_cols] and
    its outputs go back to the same columns in the same order; the lengths
    must agree, and every column not listed in [num_cols] reaches the
    estimator as the encoders left it. *)
Theorem scale_columns_lookup
  (transform : list cell -> outcome (list float)) (cols : list string) (X X2 : row) :
  NoDup cols ->
  scale_columns (Scaler transform) (ColumnList cols) X = Returns X2 ->
  exists cells scaled,
    select_columns X cols = Returns cells /\
    transform cells = Returns scaled /\
    length cells = length cols /\
    length scaled = length cols /\
    (forall i c, cols !! i = Some c -> row_lookup X c = cells !! i) /\
    (forall i c x, cols !! i = Some c -> scaled !! i = Some x ->
       row_lookup X2 c = Some (CFloat x)) /\
    (forall c, ~ In c cols -> row_lookup X2 c = row_lookup X c).
Proof.
  intros Hnd Hscale. unfold scale_columns in Hscale.
  destruct (select_columns X cols) as [cells|] eqn:Hsel; cbn in Hscale; [|done].
  destruct (transform cells) as [scaled|] eqn:Htr; cbn in Hscale; [|done].
  destruct (assign_columns_lookup cols X X2 scaled Hnd Hscale) as (Hlen & Hin & Hout).
  exists cells, scaled. split_and!; try done.
  - clear -Hsel. revert cells Hsel.
    induction cols as [|c cols IH]; intros cells; cbn; [by intros [= <-]|].
    unfold getitem. destruct (row_lookup X c); cbn; [|done].
    destruct (select_columns X cols) as [vs|]; cbn; [|done].
    intros [= <-]. cbn. by rewrite (IH vs).
  - clear -Hsel. revert cells Hsel.
    induction cols as [|c cols IH]; intros cells; cbn; [by intros [= <-] [|?]|].
    unfold getitem. destruct (row_lookup X c) as [v|] eqn:Hv; cbn; [|done].
    destruct (select_columns X cols) as [vs|]; cbn; [|done].
    intros [= <-] [|i] c'; cbn; [by intros [= <-]|]. by apply IH.
Qed.

(** X18: the artifacts are loaded before the form is looked at: a POST
    that is rejected because a numeric field does not parse has, on a
    server whose cache was still incomplete, deserialised and cached both
    bundles all the same, so that the next request finds them cached. *)
Theorem index_post_invalid_still_loads (request : Request) (w : World)
  mi ei model encoders scaler num_cols e :
  method request = POST ->
  model_bundle w = None \/ enc_data w = None ->
  fs w !! MODEL_PATH ≫= unpickle = Some mi ->
  fs w !! ENC_PATH ≫= unpickle = Some ei ->
  mi !! "model" = Some model ->
  ei !! "encoders" = Some encoders ->
  ei !! "scaler" = Some scaler ->
  ei !! "num_cols" = Some num_cols ->
  read_form request = Throws e ->
  index request w =
    Raise e
      (mkWorld (fs w) (Some mi) (Some ei)
         (trace w ++ [EvPrint MsgLoading; EvJoblibLoad MODEL_PATH;
                      EvJoblibLoad ENC_PATH; EvPrint MsgLoaded])) /\
  forall w2,
    model_bundle w2 = Some mi -> enc_data w2 = Some ei ->
    ensure_model_loaded w2 = Ok (Some mi, Some ei) w2.
Proof.
  intros Hpost Hc Fm Fe Hm He Hs Hn Hform. split.
  - rewrite index_post by done.
    rewrite (bind_Ok _ _ _ _ _ (ensure_model_loaded_loads w mi ei Hc Fm Fe)).
    cbn [fst snd].
    rewrite (bind_lift_Returns _ _ model) by by apply subscript_Some.
    rewrite (bind_lift_Returns _ _ encoders) by by apply subscript_Some.
    rewrite (bind_lift_Returns _ _ scaler) by by apply subscript_Some.
    rewrite (bind_lift_Returns _ _ num_cols) by by apply subscript_Some.
    by apply bind_lift_Throws.
  - intros w2. apply ensure_model_loaded_cached.
Qed.

(** X19: the converse of the skip: whenever the file is missing and a
    non-empty URL is given, exactly one HTTP GET goes out, to that URL,
    whatever becomes of it; so an attempt that failed without leaving a file
    is made again by the next call. *)
Theorem download_if_missing_attempts_when_missing
  (u path : string) (w : World) :
  u <> "" ->
  fs w !! path = None ->
  exists w' m,
    download_if_missing (Some u) path w = Ok tt w' /\
    trace w' =
      trace w ++ [EvPrint (MsgDownloading path u); EvHttpGet u; EvPrint m] /\
    http_gets (trace w') = S (http_gets (trace w)) /\
    (fs w' !! path = None ->
     exists w'' m',
       download_if_missing (Some u) path w' = Ok tt w'' /\
       trace w'' =
         trace w' ++ [EvPrint (MsgDownloading path u); EvHttpGet u; EvPrint m']).
Proof.
  assert (forall w0, fs w0 !! path = None -> u <> "" ->
            exists w' m,
              download_if_missing (Some u) path w0 = Ok tt w' /\
              trace w' =
                trace w0 ++ [EvPrint (MsgDownloading path u); EvHttpGet u; EvPrint m])
    as Hstep.
  { intros w0 Hp Hu.
    destruct (requests_get (announced w0 path u) u) as [|st body] eqn:Hr.
    { rewrite (download_no_reply u path w0) by done.
      eexists _, _. split; [reflexivity|]. cbn. by rewrite <- !app_assoc. }
    destruct (decide (400 <= st < 600)) as [Hst|Hst].
    { rewrite (download_bad_status u path w0 st body) by done.
      eexists _, _. split; [reflexivity|]. cbn. by rewrite <- !app_assoc. }
    destruct (open_wb (requested w0 path u) path) eqn:Ho.
    2:{ rewrite (download_open_fails u path w0 st body) by done.
        eexists _, _. split; [reflexivity|]. cbn. by rewrite <- !app_assoc. }
    destruct (file_write (created w0 path u) path body) as [n|] eqn:Hw.
    - rewrite (download_write_fails u path w0 st body n) by done.
      eexists _, _. split; [reflexivity|]. cbn. by rewrite <- !app_assoc.
    - rewrite (download_saved u path w0 st body) by done.
      eexists _, _. split; [reflexivity|]. cbn. by rewrite <- !app_assoc. }
  intros Hu Hp. destruct (Hstep w Hp Hu) as (w' & m & Hr & Ht).
  exists w', m. split_and!; try done.
  - rewrite Ht, http_gets_app. cbn. lia.
  - intros Hp'. by apply Hstep.
Qed.

End MoreProperties.

(** * Further examples in the reference environment *)

Lemma download_if_missing_saves_then_skips_witness :
  exists w1,
    @download_if_missing Demo.env (Some "https://example.org/model.joblib")
      MODEL_PATH Demo.fresh = Ok tt w1 /\
    fs w1 = <[MODEL_PATH := Demo.model_dump]> (fs Demo.fresh) /\
    exists m,
      @download_if_missing Demo.env None MODEL_PATH w1 =
        Ok tt (with_events w1 [EvPrint m]).
Proof.
  destruct (@download_if_missing_saves_then_skips Demo.env
              "https://example.org/model.joblib" MODEL_PATH Demo.fresh
              200 Demo.model_dump)
    as (w1 & Hr & Hfs & _ & _ & Hskip);
    [discriminate | reflexivity | reflexivity | lia | reflexivity | reflexivity |].
  exists w1. split; [exact Hr|]. split; [exact Hfs|]. apply Hskip.
Defined.

Lemma module_init_nothing_to_fetch_witness :
  exists w',
    @module_init Demo.env Demo.installed = Ok tt w' /\
    fs w' = fs Demo.installed /\
    http_gets (trace w') = 0%nat.
Proof.
  destruct (@module_init_nothing_to_fetch Demo.env Demo.installed)
    as (w' & m1 & m2 & Hr & Hfs & _ & Hg).
  - left. by eexists.
  - left. by eexists.
  - exists w'. split; [exact Hr|]. split; [exact Hfs|]. rewrite Hg. reflexivity.
Defined.

Lemma ensure_model_loaded_fails_again_witness :
  let w1 := final_world (@ensure_model_loaded Demo.env Demo.model_only) in
  @ensure_model_loaded Demo.env Demo.model_only =
    Raise (FileNotFoundError ENC_PATH) w1 /\
  exists w3,
    @ensure_model_loaded Demo.env w1 = Raise (FileNotFoundError ENC_PATH) w3.
Proof.
  intros w1.
  assert (@ensure_model_loaded Demo.env Demo.model_only =
            Raise (FileNotFoundError ENC_PATH) w1) as Hr by reflexivity.
  split; [exact Hr|].
  apply (@ensure_model_loaded_fails_again Demo.env Demo.model_only w1
           (FileNotFoundError ENC_PATH)).
  - intros [? ?]. discriminate.
  - exact Hr.
  - reflexivity.
  - reflexivity.
  - reflexivity.
Defined.

Lemma ensure_model_loaded_recovers_witness :
  let w1 := final_world (@ensure_model_loaded Demo.env Demo.model_only) in
  let w2 := mkWorld (fs Demo.installed) (model_bundle w1) (enc_data w1) (trace w1) in
  @ensure_model_loaded Demo.env Demo.model_only =
    Raise (FileNotFoundError ENC_PATH) w1 /\
  @ensure_model_loaded Demo.env w2 =
    Ok (Some Demo.model_info, Some Demo.enc_info)
       (mkWorld (fs w2) (Some Demo.model_info) (Some Demo.enc_info)
          (trace w2 ++ [EvPrint MsgLoading; EvJoblibLoad MODEL_PATH;
                        EvJoblibLoad ENC_PATH; EvPrint MsgLoaded])).
Proof.
  intros w1 w2.
  assert (@ensure_model_loaded Demo.env Demo.model_only =
            Raise (FileNotFoundError ENC_PATH) w1) as Hr by reflexivity.
  split; [exact Hr|].
  apply (@ensure_model_loaded_recovers Demo.env Demo.model_only w1 w2
           (FileNotFoundError ENC_PATH)).
  - intros [? ?]. discriminate.
  - exact Hr.
  - reflexivity.
  - reflexivity.
  - reflexivity.
  - reflexivity.
Defined.


Lemma dispatch_other_requests_pure_witness :
  @dispatch Demo.env (mkRequest GET "/" [("Grade_fck", "M30")]) Demo.model_only =
    Ok (Rendered "index.html" None) Demo.model_only /\
  exists r,
    @dispatch Demo.env (mkRequest POST "/predict" []) Demo.model_only =
      Ok r Demo.model_only.
Proof.
  split.
  - apply (@dispatch_other_requests_pure Demo.env
             (mkRequest GET "/" [("Grade_fck", "M30")]) Demo.model_only);
      [intros [? _]; discriminate | reflexivity | reflexivity].
  - apply (@dispatch_other_requests_pure Demo.env
             (mkRequest POST "/predict" []) Demo.model_only).
    intros [_ ?]. discriminate.
Defined.

Lemma index_post_missing_key_witness :
  let w := mkWorld ∅ (Some (∅ : gmap string pyobj)) (Some Demo.enc_info) [] in
  exists w',
    @index Demo.env (Demo.post []) w = Raise (KeyError "model") w' /\
    predictions (trace w') = 0%nat.
Proof.
  intros w.
  destruct (@index_post_missing_key Demo.env (Demo.post []) w ∅ Demo.enc_info)
    as (key & w' & Hi & Hp & Hkey).
  - reflexivity.
  - left. split; reflexivity.
  - left. reflexivity.
  - exists w'. rewrite Hkey in Hi. split; [exact Hi | exact Hp].
Defined.

Lemma index_post_short_prediction_witness :
  exists w',
    @index Demo.env (Demo.post []) Faulty.cached = Raise (IndexError 2) w' /\
    predictions (trace w') = 1%nat.
Proof.
  edestruct (@index_post_short_prediction Demo.env (Demo.post []) Faulty.cached
               Faulty.model_info Demo.enc_info Faulty.predict
               (EncoderDict Demo.encoders) (Scaler Demo.scaler_transform)
               (ColumnList Demo.num_cols))
    as (w' & Hi & Hp).
  - reflexivity.
  - left. split; reflexivity.
  - reflexivity.
  - reflexivity.
  - reflexivity.
  - reflexivity.
  - vm_compute. reflexivity.
  - vm_compute. reflexivity.
  - vm_compute. reflexivity.
  - reflexivity.
  - intros y [= <-]. simpl. lia.
  - exists w'. split; [exact Hi | exact Hp].
Defined.

Lemma index_post_unknown_label_witness :
  exists w',
    @index Demo.env (Demo.post [("Cement_Type", "XYZ")]) Demo.installed =
      Raise (ValueError "XYZ") w' /\
    predictions (trace w') = 0%nat.
Proof.
  destruct (@index_post_unknown_label Demo.env
              (Demo.post [("Cement_Type", "XYZ")]) Demo.installed
              Demo.model_info Demo.enc_info (Estimator Demo.predict)
              Demo.encoders (Scaler Demo.scaler_transform)
              (ColumnList Demo.num_cols)
              (mkInputs (float_of_Z 30) (CStr "XYZ") (CStr "Crushed")
                 (float_of_Z 20) (CStr "II"))
              "Cement_Type" (Demo.label_encoder ["OPC43"; "OPC53"; "PPC"]))
    as (e & w' & Hi & Hp & _).
  - reflexivity.
  - right. split; [by left|]. split; reflexivity.
  - reflexivity.
  - reflexivity.
  - reflexivity.
  - reflexivity.
  - vm_compute. reflexivity.
  - apply (bool_decide_unpack _). vm_compute. reflexivity.
  - left. reflexivity.
  - intros (v & code & Hl & Hc). vm_compute in Hl. injection Hl as <-.
    vm_compute in Hc. discriminate.
  - exists w'. split; [|exact Hp].
    assert (@index Demo.env (Demo.post [("Cement_Type", "XYZ")]) Demo.installed =
              Raise (ValueError "XYZ")
                (final_world
                   (@index Demo.env (Demo.post [("Cement_Type", "XYZ")])
                      Demo.installed))) as Hc by reflexivity.
    rewrite Hi in Hc. injection Hc as ->. exact Hi.
Defined.

Lemma pipeline_preserves_columns_witness :
  exists X1 X2,
    @encode Demo.env (EncoderDict Demo.encoders) (X_input default_inputs) = Returns X1 /\
    scale_columns (Scaler Demo.scaler_transform) (ColumnList Demo.num_cols) X1 =
      Returns X2 /\
    map fst X2 = map fst (X_input default_inputs) /\
    length X2 = 13%nat.
Proof.
  eexists _, _. split; [vm_compute; reflexivity|]. split; [vm_compute; reflexivity|].
  edestruct (@pipeline_preserves_columns Demo.env (EncoderDict Demo.encoders)
               (Scaler Demo.scaler_transform) (ColumnList Demo.num_cols)
               (X_input default_inputs)) as [Hcols _].
  - vm_compute. reflexivity.
  - vm_compute. reflexivity.
  - split; [exact Hcols | reflexivity].
Defined.

Lemma encode_columns_lookup_witness :
  exists X1,
    @encode_columns Demo.env Demo.encoders (X_input default_inputs) = Returns X1 /\
    row_lookup X1 "Fine_Agg_Zone" = Some (CInt 1) /\
    row_lookup X1 "Grade_fck" = Some (CFloat (float_of_Z 30)).
Proof.
  eexists. split; [vm_compute; reflexivity|].
  edestruct (@encode_columns_lookup Demo.env Demo.encoders (X_input default_inputs))
    as [Hin Hout].
  - apply (bool_decide_unpack _). vm_compute. reflexivity.
  - vm_compute. reflexivity.
  - split.
    + destruct (Hin "Fine_Agg_Zone" (Demo.label_encoder ["I"; "II"; "III"; "IV"]))
        as (v & code & Hv & Hcode & Hl); [simpl; tauto|].
      vm_compute in Hv. injection Hv as <-.
      vm_compute in Hcode. injection Hcode as <-. exact Hl.
    + rewrite Hout; [reflexivity|].
      simpl. intros [H|[H|[H|[H|[H|[]]]]]]; discriminate H.
Defined.

Lemma dispatch_ignores_field_witness :
  @dispatch Demo.env
    (Demo.post [("Grade_fck", "40"); ("utm_source", "mail"); ("Grade_fck", "M30")])
    Demo.installed =
  @dispatch Demo.env (Demo.post [("Grade_fck", "40")]) Demo.installed.
Proof.
  transitivity
    (@dispatch Demo.env
       (Demo.post [("Grade_fck", "40"); ("Grade_fck", "M30")]) Demo.installed).
  - apply (@dispatch_ignores_field Demo.env (Demo.post [])
             [("Grade_fck", "40")] [("Grade_fck", "M30")] "utm_source" "mail").
    left. simpl. intros [H|[H|[H|[H|[H|[]]]]]]; discriminate H.
  - apply (@dispatch_ignores_field Demo.env (Demo.post [])
             [("Grade_fck", "40")] [] "Grade_fck" "M30").
    right. simpl. tauto.
Defined.

Lemma scale_columns_lookup_witness :
  exists X2,
    scale_columns (Scaler Demo.scaler_transform) (ColumnList Demo.num_cols)
      (X_input default_inputs) = Returns X2 /\
    row_lookup X2 "Grade_fck" = Some (CFloat (float_of_Z 3)) /\
    row_lookup X2 "Cement_Type" = Some (CStr "OPC43").
Proof.
  eexists. split; [vm_compute; reflexivity|].
  edestruct (@scale_columns_lookup Demo.scaler_transform Demo.num_cols
               (X_input default_inputs))
    as (cells & scaled & Hsel & Htr & _ & _ & _ & Hin & Hout).
  - apply (bool_decide_unpack _). vm_compute. reflexivity.
  - vm_compute. reflexivity.
  - vm_compute in Hsel. injection Hsel as <-.
    vm_compute in Htr. injection Htr as <-.
    split.
    + apply (Hin 0%nat); reflexivity.
    + rewrite Hout; [reflexivity|].
      simpl. intros [H|[H|[H|[H|[]]]]]; discriminate H.
Defined.

Lemma index_post_invalid_still_loads_witness :
  exists w',
    @index Demo.env (Demo.post [("Grade_fck", "M30")]) Demo.installed =
      Raise (ValueError "M30") w' /\
    model_bundle w' = Some Demo.model_info /\
    enc_data w' = Some Demo.enc_info /\
    @ensure_model_loaded Demo.env w' =
      Ok (Some Demo.model_info, Some Demo.enc_info) w'.
Proof.
  destruct (@index_post_invalid_still_loads Demo.env
              (Demo.post [("Grade_fck", "M30")]) Demo.installed
              Demo.model_info Demo.enc_info (Estimator Demo.predict)
              (EncoderDict Demo.encoders) (Scaler Demo.scaler_transform)
              (ColumnList Demo.num_cols) (ValueError "M30"))
    as [Hi Hnext].
  - reflexivity.
  - by left.
  - reflexivity.
  - reflexivity.
  - reflexivity.
  - reflexivity.
  - reflexivity.
  - reflexivity.
  - reflexivity.
  - eexists. split; [exact Hi|]. split; [reflexivity|]. split; [reflexivity|].
    apply Hnext; reflexivity.
Defined.

Lemma download_if_missing_attempts_when_missing_witness :
  exists w' w'',
    @download_if_missing Demo.offline (Some "https://example.org/model.joblib")
      MODEL_PATH Demo.fresh = Ok tt w' /\
    @download_if_missing Demo.offline (Some "https://example.org/model.joblib")
      MODEL_PATH w' = Ok tt w'' /\
    http_gets (trace w'') = 2%nat.
Proof.
  destruct (@download_if_missing_attempts_when_missing Demo.offline
              "https://example.org/model.joblib" MODEL_PATH Demo.fresh)
    as (w' & m & Hr & Ht & Hg & Hagain); [discriminate | reflexivity |].
  assert (fs w' !! MODEL_PATH = None) as Hp.
  { pose proof Hr as Hc. vm_compute in Hc. injection Hc as <-. reflexivity. }
  destruct (Hagain Hp) as (w'' & m' & Hr' & Ht').
  exists w', w''. split; [exact Hr|]. split; [exact Hr'|].
  rewrite Ht', http_gets_app, Hg. reflexivity.
Defined.
